(** * Page configuration and tree routing of the notebook application

    A shallow embedding of [app_improvements.py]: the handlers
    [NotebookBaseHandler.get_page_config], [TreeHandler.get] and
    [CustomCssHandler.get], with the properties their specification
    states about them.

    Python dictionaries are finite maps ([gmap string value]); exceptions,
    the logger, the response headers and the calls made to the contents
    manager are threaded through a small state-and-error monad. The
    functions imported from other packages ([url_path_join], [url_escape],
    [os.path.relpath], ...) are the fields of the class [Lib]; every
    theorem holds for all of them, and [Posix] gives one instance to
    evaluate the handlers on concrete requests. *)

From Stdlib Require Import ZArith String Ascii List Bool Lia.
From stdpp Require Import base option gmap strings list fin_maps.

Set Warnings "-register-all".
Open Scope string_scope.

(** ** Python values *)

(** JSON-like values, as found in the page configuration. *)
Inductive value : Type :=
  | VNone
  | VBool (b : bool)
  | VInt (z : Z)
  | VStr (s : string)
  | VList (l : list value)
  | VDict (d : gmap string value).

Abbreviation dict := (gmap string value).

(** ** Exceptions *)

Inductive exc_class : Type :=
  | KeyError
  | IOError
  | ValueError
  | TypeError
  | RuntimeError
  | AttributeError.

(** A built-in exception: its class and [str(e)]. *)
Record error : Type := mkError { cls : exc_class; message : string }.

(** What a handler can raise: tornado's [web.HTTPError(status, log_message)]
    or a built-in exception. *)
Inductive exn : Type :=
  | HTTPError (status_code : Z) (log_message : option string)
  | Raise (e : error).

Definition is_IOError (e : error) : bool :=
  match cls e with IOError => true | _ => false end.

(** ** The world a handler acts on *)

Inductive level : Type := DEBUG | INFO | WARNING | ERROR.

(** A call made to the contents manager. *)
Inductive probe : Type :=
  | DirExists (path : string)
  | IsHidden (path : string)
  | AllowHidden
  | FileExists (path : string)
  | Get (path : string) (content : bool).

Record world : Type := mkWorld {
  log : list (level * string);
  probes : list probe;
  headers : list (string * string)
}.

(** A computation that reads and extends the world and returns a value or
    raises. *)
Definition M (A : Type) : Type := world → (exn + A) * world.

Definition ret {A} (x : A) : M A := λ w, (inr x, w).

Definition bind {A B} (m : M A) (f : A → M B) : M B :=
  λ w, match m w with
       | (inl e, w') => (inl e, w')
       | (inr x, w') => f x w'
       end.

Definition raise {A} (e : exn) : M A := λ w, (inl e, w).

(** A library call that returns or raises a built-in exception. *)
Definition lift {A} (r : error + A) : M A :=
  match r with
  | inl e => raise (Raise e)
  | inr x => ret x
  end.

Definition log_msg (lvl : level) (msg : string) : M unit :=
  λ w, (inr tt, mkWorld (log w ++ [(lvl, msg)]) (probes w) (headers w)).

(** The entries that a callee writes through the logger it is given. *)
Definition log_all (entries : list (level * string)) : M unit :=
  λ w, (inr tt, mkWorld (log w ++ entries) (probes w) (headers w)).

Definition record_probe (p : probe) : M unit :=
  λ w, (inr tt, mkWorld (log w) (probes w ++ [p]) (headers w)).

Definition set_header (name val : string) : M unit :=
  λ w, (inr tt, mkWorld (log w) (probes w) (headers w ++ [(name, val)])).

Declare Scope m_scope.
Delimit Scope m_scope with m.
Notation "'do' x <- m ; k" := (bind m (λ x, k))
  (at level 10, x name, m at level 100, k at level 200) : m_scope.
Notation "m ;;; k" := (bind m (λ _, k))
  (at level 100, k at level 200, right associativity) : m_scope.
Open Scope m_scope.

(** ** Strings *)

Definition slash : ascii := "/"%char.
Definition newline : ascii := "010"%char.

(** [s.startswith(p)] *)
Definition startswith (s p : string) : bool := String.prefix p s.

(** [s.endswith(p)] *)
Definition endswith (s p : string) : bool :=
  String.prefix (String.rev p) (String.rev s).

(** [s.lstrip(c)], [s.rstrip(c)] and [s.strip(c)] for one character [c]. *)
Fixpoint lstrip (c : ascii) (s : string) : string :=
  match s with
  | String a s' => if Ascii.eqb a c then lstrip c s' else s
  | EmptyString => EmptyString
  end.

Definition rstrip (c : ascii) (s : string) : string :=
  String.rev (lstrip c (String.rev s)).

Definition strip (c : ascii) (s : string) : string := rstrip c (lstrip c s).

(** [s.replace(old, new)] for a one-character [old]. *)
Fixpoint replace (old : ascii) (new : string) (s : string) : string :=
  match s with
  | String a s' =>
      (if Ascii.eqb a old then new else String a EmptyString) +:+ replace old new s'
  | EmptyString => EmptyString
  end.

(** [re.match("^(.*?)static", s)]: the group of the match, if any. The lazy
    group takes as few characters as possible, and [.] takes no newline. *)
Fixpoint re_match_static (s : string) : option string :=
  if String.prefix "static" s then Some EmptyString
  else match s with
       | String a s' =>
           if Ascii.eqb a newline then None
           else String a <$> re_match_static s'
       | EmptyString => None
       end.

(** ** What the handlers import *)

(** The functions and constants the module takes from other packages and
    from the host: [jupyter_server.utils], [jupyterlab_server], [os.path],
    [pathlib], the template engine and the file system. *)
Class Lib : Type := {
  (** [url_path_join] of the listed pieces *)
  ujoin : list string → string;
  url_escape : string → string;
  (** [url_is_absolute] raises the [ValueError] of [urlparse] on a URL that
      does not parse *)
  url_is_absolute : string → error + bool;
  is_url : string → bool;
  _camelCase : string → string;
  (** [os.sep] *)
  os_sep : ascii;
  (** [Path(p).expanduser()] *)
  expanduser : string → error + string;
  (** [os.path.normpath] and [os.path.relpath] *)
  normpath : string → string;
  relpath : string → string → error + string;
  jupyter_config_dir : string;
  (** [LabConfig().trait_names()] *)
  trait_names : list string;
  (** [jupyterlab_server.config.get_page_config(labextensions_path)]: the
      page configuration the extensions found on disk contribute. *)
  lab_get_page_config : list string → dict;
  (** what that call writes to the logger it is given *)
  lab_get_page_config_log : list string → list (level * string);
  render_template : string → dict → string;
  (** [__version__] *)
  version : string;
  (** [format(v)] of a value that is not a string. *)
  py_format : value → string;
  (** [Path(p).is_file()] and [Path(p).open().read()] *)
  is_file : string → bool;
  open_read : string → error + string
}.

(** [f"{v}"] *)
Definition format_value `{Lib} (v : value) : string :=
  match v with
  | VStr s => s
  | _ => py_format v
  end.

(** ** The merge of page configurations *)

(** Modelled from the spec: [recursive_update] of [jupyterlab_server.config]
    is not part of this repository. The page configuration is merged deeply:
    mapping values merge key by key, recursively; any other value of the
    later source replaces the earlier one. *)
Fixpoint deep_merge (old new : value) : value :=
  match old, new with
  | VDict t, VDict n => VDict (union_with (λ x y, Some (deep_merge x y)) t n)
  | _, _ => new
  end.

Definition recursive_update (target new : dict) : dict :=
  union_with (λ x y, Some (deep_merge x y)) target new.

(** Modelled from the spec: the scan of the extension paths is not part of
    this repository. Every fragment found is merged in, in order. *)
Definition merge_fragments (page_config : dict) (fragments : list dict) : dict :=
  fold_left recursive_update fragments page_config.

(** ** The objects a handler holds *)

(** [self.extensionapp], a [JupyterNotebookApp]. *)
Record App : Type := mkApp {
  expose_app_in_browser : bool;
  (** [getattr(app, name)] on the trait names *)
  getattr : string → value;
  extra_labextensions_path : list string;
  labextensions_path : list string
}.

(** The model of an entry, as the contents manager returns it: the handler
    reads [model["type"]]. *)
Record Model : Type := mkModel { model_type : string }.

(** [self.contents_manager] *)
Record ContentsManager : Type := mkContentsManager {
  dir_exists : string → bool;
  is_hidden : string → bool;
  allow_hidden : bool;
  file_exists : string → bool;
  (** [cm.get(path, content)]: the model of the entry *)
  get : string → bool → Model
}.

(** What a hook can read of the handler it is called with: its fields other
    than the settings. *)
Record Context : Type := mkContext {
  ctx_extensionapp : App;
  ctx_preferred_dir : string;
  ctx_base_url : string;
  ctx_name : string;
  ctx_request_path : string;
  ctx_contents_manager : ContentsManager
}.

(** [self.settings]: the keys the handlers read; [None] is an absent key. *)
Record Settings : Type := mkSettings {
  st_base_url : option string;
  st_page_config_data : option dict;
  st_terminals_available : option value;
  st_token : option value;
  st_server_root_dir : option string;
  st_mathjax_config : option value;
  st_mathjax_url : option string;
  (** [page_config_hook(handler, page_config)] *)
  st_page_config_hook : option (Context → dict → dict)
}.

Record Handler : Type := mkHandler {
  settings : Settings;
  extensionapp : App;
  (** [self.serverapp.preferred_dir] *)
  preferred_dir : string;
  (** [self.base_url], a property of the base class; [get_page_config]
      also reads the key "base_url" of the settings *)
  base_url : string;
  (** [self.name] *)
  name : string;
  (** [self.request.path] *)
  request_path : string;
  contents_manager : ContentsManager
}.

Definition context (h : Handler) : Context :=
  mkContext (extensionapp h) (preferred_dir h) (base_url h) (name h)
            (request_path h) (contents_manager h).

(** What a handler answers with. *)
Inductive response : Type :=
  | Write (body : string)
  | Redirect (url : string).

(** [d[key]] *)
Definition getitem (d : dict) (key : string) : M value :=
  match d !! key with
  | Some v => ret v
  | None => raise (Raise (mkError KeyError ("'" +:+ key +:+ "'")))
  end.

Section Handlers.
Context `{Lib}.

(** ** [NotebookBaseHandler.get_page_config] *)

(** The dictionary display of lines 60-69, once [settings["token"]] is
    read: the entries of [page_config_data], then the listed keys.
    [setdefault] also stores the empty dictionary in the settings when the
    key is absent, which no later read of the handlers tells from an absent
    key; the settings are not part of the world. *)
Definition seed_dict (h : Handler) (token : value) : dict :=
  let app := extensionapp h in
  let page_config_data := default ∅ (st_page_config_data (settings h)) in
  <["exposeAppInBrowser" := VBool (expose_app_in_browser app)]>
  (<["frontendUrl" := VStr (ujoin [base_url h; "/"])]>
  (<["fullStaticUrl" := VStr (ujoin [base_url h; "static"; name h])]>
  (<["token" := token]>
  (<["terminalsAvailable" :=
       default (VBool false) (st_terminals_available (settings h))]>
  (<["baseUrl" := VStr (base_url h)]>
  (<["appVersion" := VStr version]> page_config_data)))))).

(** Lines 59-69; [settings["token"]] raises when the key is absent. *)
Definition seed_page_config (h : Handler) : M dict :=
  do token <- match st_token (settings h) with
              | Some t => ret t
              | None => raise (Raise (mkError KeyError "'token'"))
              end;
  ret (seed_dict h token).

(** Lines 71-72: the normalized server root. *)
Definition server_root_dir (h : Handler) : M string :=
  let server_root :=
    replace os_sep "/" (default "" (st_server_root_dir (settings h))) in
  do expanded <- lift (expanduser server_root);
  ret (normpath expanded).

(** The expression of lines 74-75, which the [try] guards. *)
Definition preferred_path (h : Handler) (server_root : string) : error + string :=
  if bool_decide (preferred_dir h ≠ server_root) then
    match relpath (preferred_dir h) server_root with
    | inr rel => inr ("/" +:+ rel)
    | inl e => inl e
    end
  else inr "/".

(** Lines 73-78. *)
Definition set_preferred_path (h : Handler) (server_root : string)
    (page_config : dict) : M dict :=
  match preferred_path h server_root with
  | inr p => ret (<["preferredPath" := VStr p]> page_config)
  | inl e =>
      log_msg ERROR ("Error determining preferred path: " +:+ message e);;;
      ret (<["preferredPath" := VStr "/"]> page_config)
  end.

(** Lines 81-86; [url_is_absolute] is called outside the [try], and
    [startswith] only for a URL that is not absolute. *)
Definition full_mathjax_url (h : Handler) : error + string :=
  let mathjax_url :=
    default "https://cdnjs.cloudflare.com/ajax/libs/mathjax/2.7.7/MathJax.js"
            (st_mathjax_url (settings h)) in
  match url_is_absolute mathjax_url with
  | inl e => inl e
  | inr absolute =>
      inr (if negb absolute && negb (startswith mathjax_url (base_url h))
           then ujoin [base_url h; mathjax_url]
           else mathjax_url)
  end.

(** Lines 80 and 88-92, with the URL that lines 81-86 computed. *)
Definition set_mathjax (h : Handler) (mathjax_url : string) (page_config : dict)
    : dict :=
  let mathjax_config :=
    default (VStr "TeX-AMS_HTML-full,Safe") (st_mathjax_config (settings h)) in
  <["jupyterConfigDir" := VStr jupyter_config_dir]>
  (<["fullMathjaxUrl" := VStr mathjax_url]>
  (<["mathjaxConfig" := mathjax_config]> page_config)).

(** Lines 94-95. *)
Definition set_traits (app : App) (names : list string) (page_config : dict) : dict :=
  fold_left (λ pc name, <[_camelCase name := getattr app name]> pc)
            names page_config.

(** Lines 101-102: the value stored for a URL trait. *)
Definition full_url (base_url raw : string) : string :=
  if negb (is_url raw) then ujoin [base_url; raw] else raw.

(** The body of the loop of lines 97-103. A trait value that is not a
    string makes [is_url] or [url_path_join] raise. *)
Definition set_full_url (app : App) (base_url : string) (name : string)
    (page_config : dict) : M dict :=
  if endswith name "_url" then
    let full_name := _camelCase ("full_" +:+ name) in
    match getattr app name with
    | VStr raw => ret (<[full_name := VStr (full_url base_url raw)]> page_config)
    | _ => raise (Raise (mkError AttributeError "not a string"))
    end
  else ret page_config.

Fixpoint set_full_urls (app : App) (base_url : string) (names : list string)
    (page_config : dict) : M dict :=
  match names with
  | [] => ret page_config
  | name :: names' =>
      do page_config' <- set_full_url app base_url name page_config;
      set_full_urls app base_url names' page_config'
  end.

(** Lines 114-116. *)
Definition apply_hook (h : Handler) (page_config : dict) : dict :=
  match st_page_config_hook (settings h) with
  | Some page_config_hook => page_config_hook (context h) page_config
  | None => page_config
  end.

(** Lines 54-118. The library's [get_page_config] is given the logger of
    the handler (line 110): what it writes is in the log before its result
    is merged. *)
Definition get_page_config (h : Handler) : M dict :=
  let app := extensionapp h in
  let base_url := default "/" (st_base_url (settings h)) in
  do page_config <- seed_page_config h;
  do server_root <- server_root_dir h;
  do page_config <- set_preferred_path h server_root page_config;
  do mathjax_url <- lift (full_mathjax_url h);
  let page_config := set_mathjax h mathjax_url page_config in
  let page_config := set_traits app trait_names page_config in
  do page_config <- set_full_urls app base_url trait_names page_config;
  let labextensions_path :=
    (extra_labextensions_path app ++ labextensions_path app)%list in
  log_all (lab_get_page_config_log labextensions_path);;;
  let page_config :=
    recursive_update page_config (lab_get_page_config labextensions_path) in
  ret (apply_hook h page_config).

(** ** [TreeHandler.get] *)

Definition cm_dir_exists (cm : ContentsManager) (path : string) : M bool :=
  record_probe (DirExists path);;; ret (dir_exists cm path).

Definition cm_is_hidden (cm : ContentsManager) (path : string) : M bool :=
  record_probe (IsHidden path);;; ret (is_hidden cm path).

Definition cm_allow_hidden (cm : ContentsManager) : M bool :=
  record_probe AllowHidden;;; ret (allow_hidden cm).

Definition cm_file_exists (cm : ContentsManager) (path : string) : M bool :=
  record_probe (FileExists path);;; ret (file_exists cm path).

Definition cm_get (cm : ContentsManager) (path : string) (content : bool) : M Model :=
  record_probe (Get path content);;; ret (get cm path content).

(** Lines 135-138: the directory listing. *)
Definition tree_listing (h : Handler) (path : string) : M response :=
  do page_config <- get_page_config h;
  let page_config := <["treePath" := VStr path]> page_config in
  let tpl := render_template "tree.html" page_config in
  ret (Write tpl).

(** Lines 142-144. *)
Definition redirect_url (h : Handler) (model : Model) (path : string) : string :=
  if String.eqb (model_type model) "notebook"
  then ujoin [base_url h; "notebooks"; url_escape path]
  else ujoin [base_url h; "files"; url_escape path].

(** Lines 141-147: the redirection of a file. [self.redirect(url)] sets the
    header "Location" of the response, whose status is 302. *)
Definition tree_redirect (h : Handler) (path : string) : M response :=
  do model <- cm_get (contents_manager h) path false;
  let url := redirect_url h model path in
  log_msg DEBUG ("Redirecting " +:+ request_path h +:+ " to " +:+ url);;;
  set_header "Location" url;;;
  ret (Redirect url).

(** The body of the handler, run for an authenticated user. In
    [is_hidden(path) and not cm.allow_hidden] the second operand is read
    only when the first holds. *)
Definition TreeHandler_get (h : Handler) (path : string) : M response :=
  let path := strip slash path in
  let cm := contents_manager h in
  do is_dir <- cm_dir_exists cm path;
  if is_dir then
    do hidden <- cm_is_hidden cm path;
    do refused <- (if hidden
                   then do allow <- cm_allow_hidden cm; ret (negb allow)
                   else ret false);
    if refused then
      log_msg INFO "Refusing to serve hidden directory, via 404 Error";;;
      raise (HTTPError 404 None)
    else tree_listing h path
  else
    do is_file <- cm_file_exists cm path;
    if is_file then tree_redirect h path
    else raise (HTTPError 404 None).

(** ** [CustomCssHandler.get] *)

(** Lines 200-205: the stylesheet that is opened. *)
Definition custom_css_file (page_config : dict) : M string :=
  do config_dir <- getitem page_config "jupyterConfigDir";
  let custom_css_file := format_value config_dir +:+ "/custom/custom.css" in
  if is_file custom_css_file then ret custom_css_file
  else
    do static_dir <- getitem page_config "staticDir";
    match static_dir with
    | VStr static_dir =>
        match re_match_static static_dir with
        | Some root => ret (root +:+ "custom/custom.css")
        | None => ret custom_css_file
        end
    | _ => raise (Raise (mkError TypeError "expected string or bytes-like object"))
    end.

(** The body of the handler, run for an authenticated user; [except
    IOError] leaves any other exception to the caller. *)
Definition CustomCssHandler_get (h : Handler) : M response :=
  set_header "Content-Type" "text/css";;;
  do page_config <- get_page_config h;
  do css_file <- custom_css_file page_config;
  match open_read css_file with
  | inr css => ret (Write css)
  | inl e =>
      if is_IOError e then
        log_msg ERROR ("Error reading custom CSS file: " +:+ message e);;;
        raise (HTTPError 500 (Some "Custom CSS file not found."))
      else raise (Raise e)
  end.

End Handlers.

Section Pages.
Context `{Lib}.

(** ** [ConsoleHandler.get], [TerminalHandler.get], [FileHandler.get] and
    [NotebookHandler.get]

    The bodies of the handlers, run for an authenticated user; the path of
    the route is an argument that no body reads. *)

Definition ConsoleHandler_get (h : Handler) (path : option string) : M response :=
  do page_config <- get_page_config h;
  let tpl := render_template "consoles.html" page_config in
  ret (Write tpl).

Definition TerminalHandler_get (h : Handler) (path : option string) : M response :=
  do page_config <- get_page_config h;
  let tpl := render_template "terminals.html" page_config in
  ret (Write tpl).

Definition FileHandler_get (h : Handler) (path : option string) : M response :=
  do page_config <- get_page_config h;
  let tpl := render_template "edit.html" page_config in
  ret (Write tpl).

Definition NotebookHandler_get (h : Handler) (path : option string) : M response :=
  do page_config <- get_page_config h;
  let tpl := render_template "notebooks.html" page_config in
  ret (Write tpl).

(** The four handlers, each with the template it renders. *)
Definition page_handlers : list (string * (Handler → option string → M response)) :=
  [("consoles.html", ConsoleHandler_get);
   ("terminals.html", TerminalHandler_get);
   ("edit.html", FileHandler_get);
   ("notebooks.html", NotebookHandler_get)].

End Pages.

(** ** An instance of the library, for POSIX hosts

    The imported functions as their packages define them, on byte strings
    without control characters. The theorems below do not depend on this
    module; it serves to run the handlers on concrete requests. *)
Module Posix.

(** [s.split(sep)] for one character [sep]. *)
Fixpoint split (sep : ascii) (s : string) : list string :=
  match s with
  | EmptyString => [EmptyString]
  | String a s' =>
      if Ascii.eqb a sep then EmptyString :: split sep s'
      else match split sep s' with
           | x :: xs => String a x :: xs
           | [] => [String a EmptyString]
           end
  end.

Definition nonempty (s : string) : bool := negb (String.eqb s "").

Definition between (lo hi : N) (a : ascii) : bool :=
  (lo <=? N_of_ascii a)%N && (N_of_ascii a <=? hi)%N.

Definition is_upper : ascii → bool := between 65 90.
Definition is_lower : ascii → bool := between 97 122.
Definition is_digit : ascii → bool := between 48 57.
Definition is_alpha (a : ascii) : bool := is_upper a || is_lower a.
Definition is_alnum (a : ascii) : bool := is_alpha a || is_digit a.

Definition lower (a : ascii) : ascii :=
  if is_upper a then ascii_of_N (N_of_ascii a + 32) else a.
Definition upper (a : ascii) : ascii :=
  if is_lower a then ascii_of_N (N_of_ascii a - 32) else a.

Definition one_of (chars : string) (a : ascii) : bool :=
  existsb (Ascii.eqb a) (list_ascii_of_string chars).

Fixpoint string_filter (f : ascii → bool) (s : string) : string :=
  match s with
  | EmptyString => EmptyString
  | String a s' => if f a then String a (string_filter f s') else string_filter f s'
  end.

Fixpoint string_map (f : ascii → ascii) (s : string) : string :=
  match s with
  | EmptyString => EmptyString
  | String a s' => String (f a) (string_map f s')
  end.

(** The longest prefix without a character of [stop], and the rest. *)
Fixpoint break (stop : ascii → bool) (s : string) : string * string :=
  match s with
  | EmptyString => (EmptyString, EmptyString)
  | String a s' =>
      if stop a then (EmptyString, s)
      else let '(pre, rest) := break stop s' in (String a pre, rest)
  end.

(** *** [jupyter_server.utils] *)

Definition url_path_join (pieces : list string) : string :=
  let initial := startswith (hd "" pieces) "/" in
  let final := endswith (List.last pieces "") "/" in
  let stripped := map (strip slash) pieces in
  let result := String.concat "/" (List.filter nonempty stripped) in
  let result := if initial then "/" +:+ result else result in
  let result := if final then result +:+ "/" else result in
  if String.eqb result "//" then "/" else result.

Definition hex_digit (n : N) : ascii :=
  if (n <? 10)%N then ascii_of_N (48 + n) else ascii_of_N (55 + n).

(** [urllib.parse.quote], one byte at a time. *)
Definition quote_byte (a : ascii) : string :=
  if is_alnum a || one_of "_.-~" a then String a EmptyString
  else String "%" (String (hex_digit (N_of_ascii a / 16))
                  (String (hex_digit (N_of_ascii a mod 16)) EmptyString)).

Fixpoint quote (s : string) : string :=
  match s with
  | EmptyString => EmptyString
  | String a s' => quote_byte a +:+ quote s'
  end.

Definition url_escape (path : string) : string :=
  String.concat "/" (map quote (split slash path)).

(** [urllib.parse.urlsplit]: the scheme, the network location and the
    path of a URL. *)
Definition split_scheme (url : string) : string * string :=
  let '(pre, rest) := break (Ascii.eqb ":") url in
  match pre, rest with
  | String a _, String _ rest' =>
      if is_alpha a
         && forallb (λ c, is_alnum c || one_of "+-." c) (list_ascii_of_string pre)
      then (string_map lower pre, rest')
      else (EmptyString, url)
  | _, _ => (EmptyString, url)
  end.

Definition has_bracket (c : ascii) (s : string) : bool :=
  existsb (Ascii.eqb c) (list_ascii_of_string s).

Definition split_netloc (url : string) : string * string :=
  match url with
  | String "/" (String "/" rest) => break (one_of "/?#") rest
  | _ => (EmptyString, url)
  end.

(** A network location with one bracket and not the other is refused; a
    bracketed host is not looked into. *)
Definition urlsplit (url : string) : error + string * string * string :=
  let '(scheme, rest) := split_scheme url in
  let '(netloc, rest) := split_netloc rest in
  let '(path, _) := break (one_of "?#") rest in
  if xorb (has_bracket "[" netloc) (has_bracket "]" netloc)
  then inl (mkError ValueError "Invalid IPv6 URL")
  else inr (scheme, netloc, path).

Definition url_is_absolute (url : string) : error + bool :=
  match urlsplit url with
  | inl e => inl e
  | inr (_, _, path) => inr (startswith path "/")
  end.

(** *** [jupyterlab_server.handlers] *)

(** [is_url] catches the [ValueError] of [urlparse]. *)
Definition is_url (url : string) : bool :=
  match urlsplit url with
  | inl _ => false
  | inr (scheme, netloc, _) => nonempty scheme && nonempty netloc
  end.

(** [s.title()] *)
Fixpoint title (after_letter : bool) (s : string) : string :=
  match s with
  | EmptyString => EmptyString
  | String a s' =>
      if is_alpha a
      then String (if after_letter then lower a else upper a) (title true s')
      else String a (title false s')
  end.

(** [_camelCase]; the names it is applied to hold a letter or a digit. *)
Definition camelCase (base : string) : string :=
  match string_filter is_alnum (title false base) with
  | String a output => String (lower a) output
  | EmptyString => EmptyString
  end.

(** *** [posixpath] *)

Definition normpath_step (initial_slashes : nat) (new_comps : list string)
    (comp : string) : list string :=
  if String.eqb comp "" || String.eqb comp "." then new_comps
  else if negb (String.eqb comp "..")
          || (Nat.eqb initial_slashes 0 && Nat.eqb (length new_comps) 0)
          || String.eqb (List.last new_comps "") ".."
  then (new_comps ++ [comp])%list
  else removelast new_comps.

Definition normpath (path : string) : string :=
  if String.eqb path "" then "."
  else
    let initial_slashes :=
      if startswith path "/" then
        if startswith path "//" && negb (startswith path "///") then 2 else 1
      else 0 in
    let new_comps := fold_left (normpath_step initial_slashes) (split slash path) [] in
    let path := String.concat "/" new_comps in
    let path := match initial_slashes with
                | 0 => path
                | 1 => "/" +:+ path
                | _ => "//" +:+ path
                end in
    if String.eqb path "" then "." else path.

Definition abspath (cwd path : string) : string :=
  if startswith path "/" then normpath path
  else normpath (if endswith cwd "/" then cwd +:+ path else cwd +:+ "/" +:+ path).

Fixpoint common_prefix (l1 l2 : list string) : nat :=
  match l1, l2 with
  | x :: l1', y :: l2' => if String.eqb x y then S (common_prefix l1' l2') else 0
  | _, _ => 0
  end.

Definition relpath (cwd path start : string) : error + string :=
  if String.eqb path "" then inl (mkError ValueError "no path specified")
  else
    let start_list := List.filter nonempty (split slash (abspath cwd start)) in
    let path_list := List.filter nonempty (split slash (abspath cwd path)) in
    let i := common_prefix start_list path_list in
    let rel_list :=
      (repeat ".." (length start_list - i) ++ skipn i path_list)%list in
    match rel_list with
    | [] => inr "."
    | _ => inr (String.concat "/" rel_list)
    end.

(** [Path(p).expanduser()], when only the home of the current user is
    known. *)
Definition expanduser (home path : string) : error + string :=
  match path with
  | String "~" rest =>
      if String.eqb rest "" || startswith rest "/" then inr (home +:+ rest)
      else inl (mkError RuntimeError "Could not determine home directory.")
  | _ => inr path
  end.

(** What the host provides. *)
Record Host : Type := mkHost {
  home : string;
  cwd : string;
  config_dir : string;
  app_version : string;
  lab_traits : list string;
  extension_config : list string → dict;
  extension_log : list string → list (level * string);
  templates : string → dict → string;
  formatter : value → string;
  (** the readable files and their contents *)
  files : string → option string
}.

Definition is_readable (host : Host) (path : string) : bool :=
  match files host path with Some _ => true | None => false end.

Definition read (host : Host) (path : string) : error + string :=
  match files host path with
  | Some text => inr text
  | None => inl (mkError IOError "No such file or directory")
  end.

Definition lib (host : Host) : Lib :=
  Build_Lib url_path_join url_escape url_is_absolute is_url camelCase
            slash (expanduser (home host)) normpath (relpath (cwd host))
            (config_dir host) (lab_traits host) (extension_config host)
            (extension_log host) (templates host) (app_version host) (formatter host)
            (is_readable host) (read host).

End Posix.

(** ** A host and its requests, to run the handlers on *)
Module Demo.

(** The templates and the formatter stand for the template engine and
    for [format]: a page is its template name and the tree path. *)
Definition host_with (extension_fragment : dict) (stylesheet : option string)
    : Posix.Host := {|
  Posix.home := "/home/jovyan";
  Posix.cwd := "/home/jovyan";
  Posix.config_dir := "/home/jovyan/.jupyter";
  Posix.app_version := "7.0.0";
  Posix.lab_traits := ["app_name"; "static_dir"; "static_url"; "tree_url"];
  Posix.extension_config := λ _, extension_fragment;
  Posix.extension_log := λ _, [];
  Posix.templates := λ name page_config,
    match page_config !! "treePath" with
    | Some (VStr path) => name +:+ " " +:+ path
    | _ => name
    end;
  Posix.formatter := λ _, "";
  Posix.files := λ path,
    if String.eqb path "/home/jovyan/.jupyter/custom/custom.css"
    then stylesheet else None
|}.

Definition lib_with (extension_fragment : dict) : Lib :=
  Posix.lib (host_with extension_fragment (Some "body { margin: 0 }")).

(** The host without extensions. *)
Definition lib : Lib := lib_with ∅.

(** The host without extensions and without a custom stylesheet. *)
Definition lib_without_stylesheet : Lib := Posix.lib (host_with ∅ None).

(** The host whose library reports, at the level WARNING, every directory
    of extensions that it scans. *)
Definition lib_reporting : Lib :=
  let host := host_with ∅ (Some "body { margin: 0 }") in
  Posix.lib {|
    Posix.home := Posix.home host;
    Posix.cwd := Posix.cwd host;
    Posix.config_dir := Posix.config_dir host;
    Posix.app_version := Posix.app_version host;
    Posix.lab_traits := Posix.lab_traits host;
    Posix.extension_config := Posix.extension_config host;
    Posix.extension_log := map (λ path, (WARNING, "No extensions in " +:+ path));
    Posix.templates := Posix.templates host;
    Posix.formatter := Posix.formatter host;
    Posix.files := Posix.files host
  |}.

(** The host whose custom stylesheet holds bytes that do not decode: reading
    it raises a [UnicodeDecodeError], a [ValueError]. *)
Definition lib_undecodable : Lib :=
  Build_Lib Posix.url_path_join Posix.url_escape Posix.url_is_absolute
            Posix.is_url Posix.camelCase slash
            (Posix.expanduser "/home/jovyan") Posix.normpath
            (Posix.relpath "/home/jovyan") "/home/jovyan/.jupyter"
            ["app_name"; "static_dir"; "static_url"; "tree_url"] (λ _, ∅)
            (λ _, []) (λ name _, name) "7.0.0" (λ _, "") (λ _, true)
            (λ _, inl (mkError ValueError "'utf-8' codec can't decode byte 0xff")).

Definition app : App := {|
  expose_app_in_browser := false;
  getattr := λ name,
    if String.eqb name "app_name" then VStr "Jupyter Notebook"
    else if String.eqb name "static_dir" then VStr "/usr/share/jupyter/lab/static"
    else if String.eqb name "static_url" then VStr "/static/notebook/"
    else if String.eqb name "tree_url" then VStr "https://hub.example.org/tree/"
    else VNone;
  extra_labextensions_path := [];
  labextensions_path := ["/usr/share/jupyter/labextensions"]
|}.

Definition settings_with (mathjax_url : option string)
    (hook : option (Context → dict → dict)) : Settings := {|
  st_base_url := Some "/";
  st_page_config_data := None;
  st_terminals_available := Some (VBool true);
  st_token := Some (VStr "secret");
  st_server_root_dir := Some "/home/jovyan";
  st_mathjax_config := None;
  st_mathjax_url := mathjax_url;
  st_page_config_hook := hook
|}.

(** Settings of a server that was given no token. *)
Definition settings_without_token : Settings := {|
  st_base_url := Some "/";
  st_page_config_data := None;
  st_terminals_available := Some (VBool true);
  st_token := None;
  st_server_root_dir := Some "/home/jovyan";
  st_mathjax_config := None;
  st_mathjax_url := None;
  st_page_config_hook := None
|}.

Definition cm : ContentsManager := {|
  dir_exists := λ path,
    existsb (String.eqb path) [""; "project/notes"; ".cache"];
  is_hidden := λ path, startswith path ".";
  allow_hidden := false;
  file_exists := λ path,
    existsb (String.eqb path) ["a.ipynb"; "readme.txt"; ".env"];
  get := λ path _,
    mkModel (if endswith path ".ipynb" then "notebook" else "file")
|}.

Definition handler_with (s : Settings) (preferred : string) (request : string)
    : Handler := {|
  settings := s;
  extensionapp := app;
  preferred_dir := preferred;
  base_url := "/";
  name := "notebook";
  request_path := request;
  contents_manager := cm
|}.

Definition handler (request : string) : Handler :=
  handler_with (settings_with None None) "/home/jovyan/work" request.

(** A hook that sends every session to another directory. *)
Definition redirecting_hook (_ : Context) (page_config : dict) : dict :=
  <["preferredPath" := VStr "/elsewhere"]> page_config.

(** A hook that serves the static files from another host. *)
Definition cdn_hook (_ : Context) (page_config : dict) : dict :=
  <["fullStaticUrl" := VStr "https://cdn.example.org/static/"]> page_config.

(** A hook that turns MathJax off. *)
Definition no_mathjax_hook (_ : Context) (page_config : dict) : dict :=
  <["fullMathjaxUrl" := VStr ""]> page_config.

Definition start : world := mkWorld [] [] [].

(** Settings whose [page_config_data] is [data]. *)
Definition settings_with_data (data : dict) : Settings := {|
  st_base_url := Some "/";
  st_page_config_data := Some data;
  st_terminals_available := None;
  st_token := Some (VStr "secret");
  st_server_root_dir := Some "/home/jovyan";
  st_mathjax_config := None;
  st_mathjax_url := None;
  st_page_config_hook := None
|}.

(** A hook that writes the key of the tree path. *)
Definition tree_hook (_ : Context) (page_config : dict) : dict :=
  <["treePath" := VStr "elsewhere"]> page_config.

(** A hook that drops the static directory. *)
Definition forgetful_hook (_ : Context) (page_config : dict) : dict :=
  delete "staticDir" page_config.

End Demo.

(** ** Predicates used by the statements *)

(** The world after a run that logged [entries]. *)
Definition add_log (entries : list (level * string)) (w : world) : world :=
  mkWorld (log w ++ entries) (probes w) (headers w).

(** The world after the contents manager answered [calls]. *)
Definition add_probes (calls : list probe) (w : world) : world :=
  mkWorld (log w) (probes w ++ calls) (headers w).

(** The world after the response headers [hs] were set. *)
Definition add_headers (hs : list (string * string)) (w : world) : world :=
  mkWorld (log w) (probes w) (headers w ++ hs).

(** The entry of a key in the page configuration that a run returned. *)
Definition page_config_entry (run : (exn + dict) * world) (k : string)
    : option value :=
  match fst run with
  | inr page_config => page_config !! k
  | inl _ => None
  end.

(** [m] reads nothing from the world and only writes log entries. *)
Definition logs_only {A} (m : M A) : Prop :=
  ∃ r entries, ∀ w, m w = (r, add_log entries w).

(** [m] raises no [HTTPError]. *)
Definition no_http_error {A} (m : M A) : Prop :=
  ∀ w status msg, fst (m w) ≠ inl (HTTPError status msg).

(** A call that asks whether a path is hidden or whether hidden paths are
    served. *)
Definition hidden_probe (c : probe) : bool :=
  match c with
  | IsHidden _ | AllowHidden => true
  | _ => false
  end.

(** The handler [h] with another answer to the questions on hidden paths. *)
Definition with_hidden (h : Handler) (hidden : string → bool) (allow : bool)
    : Handler :=
  let cm := contents_manager h in
  mkHandler (settings h) (extensionapp h) (preferred_dir h) (base_url h) (name h)
            (request_path h)
            (mkContentsManager (dir_exists cm) hidden allow (file_exists cm) (get cm)).

Definition is_str (v : value) : bool :=
  match v with VStr _ => true | _ => false end.



Section Layers.
Context `{Lib}.

(** No trait writes the key [k], under its own name or as a full URL. *)
Definition trait_key_free (k : string) : bool :=
  forallb (λ name,
    negb (String.eqb (_camelCase name) k)
    && (negb (endswith name "_url")
        || negb (String.eqb (_camelCase ("full_" +:+ name)) k)))
    trait_names.

(** Among the URL traits only [name] writes its full-URL key. *)
Definition full_key_unique (name : string) : bool :=
  forallb (λ name',
    negb (endswith name' "_url")
    || negb (String.eqb (_camelCase ("full_" +:+ name'))
                        (_camelCase ("full_" +:+ name)))
    || String.eqb name' name)
    trait_names.

(** Every URL trait of the application holds a string. *)
Definition url_traits_are_strings (app : App) : bool :=
  forallb (λ name, negb (endswith name "_url") || is_str (getattr app name))
          trait_names.

(** The extensions on disk contribute nothing under the key [k]. *)
Definition extensions_keep (h : Handler) (k : string) : Prop :=
  lab_get_page_config
    (extra_labextensions_path (extensionapp h)
     ++ labextensions_path (extensionapp h))%list !! k = None.

(** The hook, if any, returns the entry of [k] as it receives it. *)
Definition hook_keeps (h : Handler) (k : string) : Prop :=
  ∀ page_config : dict, apply_hook h page_config !! k = page_config !! k.

(** The root that line 72 computes. *)
Definition expanded_root (h : Handler) : error + string :=
  expanduser (replace os_sep "/" (default "" (st_server_root_dir (settings h)))).

(** The URL that line 81 reads. *)
Definition mathjax_url (h : Handler) : string :=
  default "https://cdnjs.cloudflare.com/ajax/libs/mathjax/2.7.7/MathJax.js"
          (st_mathjax_url (settings h)).

(** The value of "preferredPath" after lines 73-78, and what they log. *)
Definition preferred_path_entry (h : Handler) (server_root : string) : string :=
  match preferred_path h server_root with
  | inr p => p
  | inl _ => "/"
  end.

Definition preferred_path_log (h : Handler) (server_root : string)
    : list (level * string) :=
  match preferred_path h server_root with
  | inr _ => []
  | inl e => [(ERROR, "Error determining preferred path: " +:+ message e)]
  end.

(** The loop of lines 97-103 when every URL trait holds a string. *)
Definition full_urls (app : App) (base_url : string) (names : list string)
    (page_config : dict) : dict :=
  fold_left (λ pc name,
    if endswith name "_url" then
      match getattr app name with
      | VStr raw => <[_camelCase ("full_" +:+ name) := VStr (full_url base_url raw)]> pc
      | _ => pc
      end
    else pc) names page_config.

(** The value of "fullMathjaxUrl" after lines 81-92, when line 85 does not
    raise. *)
Definition resolved_mathjax_url (h : Handler) : string :=
  match full_mathjax_url h with
  | inr url => url
  | inl _ => mathjax_url h
  end.

(** What the library writes to the logger of the handler. *)
Definition library_log (h : Handler) : list (level * string) :=
  lab_get_page_config_log
    (extra_labextensions_path (extensionapp h)
     ++ labextensions_path (extensionapp h))%list.

(** The page configuration before the hook, and the one that
    [get_page_config] returns, when the token is [token] and the expanded
    server root is [root]. *)
Definition merged (h : Handler) (token : value) (root : string) : dict :=
  let app := extensionapp h in
  let pc := <["preferredPath" := VStr (preferred_path_entry h (normpath root))]>
            (seed_dict h token) in
  let pc := set_traits app trait_names (set_mathjax h (resolved_mathjax_url h) pc) in
  let pc := full_urls app (default "/" (st_base_url (settings h))) trait_names pc in
  recursive_update pc
    (lab_get_page_config
       (extra_labextensions_path app ++ labextensions_path app)%list).

Definition assembled (h : Handler) (token : value) (root : string) : dict :=
  apply_hook h (merged h token root).

(** What [get_page_config] returns or raises. *)
Definition page_config_result (h : Handler) : exn + dict :=
  match st_token (settings h) with
  | None => inl (Raise (mkError KeyError "'token'"))
  | Some token =>
      match expanded_root h with
      | inl e => inl (Raise e)
      | inr root =>
          match full_mathjax_url h with
          | inl e => inl (Raise e)
          | inr _ =>
              if url_traits_are_strings (extensionapp h)
              then inr (assembled h token root)
              else inl (Raise (mkError AttributeError "not a string"))
          end
      end
  end.

End Layers.

(** The path that a call to the contents manager is about. *)
Definition probe_path (c : probe) : option string :=
  match c with
  | DirExists path | IsHidden path | FileExists path | Get path _ => Some path
  | AllowHidden => None
  end.

(** A call that asks for a file or for its model. *)
Definition file_probe (c : probe) : bool :=
  match c with
  | FileExists _ | Get _ _ => true
  | _ => false
  end.

(** A call that fetches the content of an entry. *)
Definition content_probe (c : probe) : bool :=
  match c with
  | Get _ content => content
  | _ => false
  end.


(** The keys that lines 60-69 write, and those that lines 73-92 write. *)
Definition seed_keys : list string :=
  ["appVersion"; "baseUrl"; "terminalsAvailable"; "token"; "fullStaticUrl";
   "frontendUrl"; "exposeAppInBrowser"].

Definition derived_keys : list string :=
  ["preferredPath"; "mathjaxConfig"; "fullMathjaxUrl"; "jupyterConfigDir"].

Definition key_in (keys : list string) (k : string) : bool :=
  existsb (String.eqb k) keys.

(** The directory [p] is refused: it is hidden and hidden paths are not
    served. *)
Definition refused (cm : ContentsManager) (p : string) : bool :=
  is_hidden cm p && negb (allow_hidden cm).

Section Entries.
Context `{Lib}.

(** The entries that lines 60-69 and 88-92 write with a value that does not
    depend on [page_config_data]. *)
Definition fixed_entries (h : Handler) (token : value) : list (string * value) :=
  [("appVersion", VStr version);
   ("baseUrl", VStr (base_url h));
   ("terminalsAvailable",
      default (VBool false) (st_terminals_available (settings h)));
   ("token", token);
   ("fullStaticUrl", VStr (ujoin [base_url h; "static"; name h]));
   ("frontendUrl", VStr (ujoin [base_url h; "/"]));
   ("exposeAppInBrowser", VBool (expose_app_in_browser (extensionapp h)));
   ("mathjaxConfig",
      default (VStr "TeX-AMS_HTML-full,Safe") (st_mathjax_config (settings h)));
   ("jupyterConfigDir", VStr jupyter_config_dir)].

(** Among the traits only [name] writes its camelCase key, and no URL trait
    writes it as a full-URL key. *)
Definition own_key_unique (name : string) : bool :=
  forallb (λ name',
    (negb (String.eqb (_camelCase name') (_camelCase name))
     || String.eqb name' name)
    && (negb (endswith name' "_url")
        || negb (String.eqb (_camelCase ("full_" +:+ name')) (_camelCase name))))
    trait_names.

(** What [get_page_config] logs: the failure of the relative path, then,
    when the library is reached, what the library writes. *)
Definition page_config_log (h : Handler) : list (level * string) :=
  match st_token (settings h), expanded_root h with
  | Some _, inr root =>
      (preferred_path_log h (normpath root)
       ++ match full_mathjax_url h with
          | inr _ => if url_traits_are_strings (extensionapp h)
                     then library_log h else []
          | inl _ => []
          end)%list
  | _, _ => []
  end.


End Entries.

(** * Properties *)

(** ** The monad *)

Lemma add_log_nil (w : world) : add_log [] w = w.
Proof. destruct w as [l p hd]. unfold add_log; simpl. by rewrite app_nil_r. Qed.

Lemma add_log_app (e1 e2 : list (level * string)) (w : world) :
  add_log e2 (add_log e1 w) = add_log (e1 ++ e2) w.
Proof. unfold add_log; simpl. by rewrite app_assoc. Qed.

Lemma bind_inr {A B} (m : M A) (f : A → M B) (w w' : world) (y : B) :
  bind m f w = (inr y, w') →
  ∃ x w1, m w = (inr x, w1) ∧ f x w1 = (inr y, w').
Proof.
  unfold bind. destruct (m w) as [[e | x] w1]; [discriminate |].
  intros Hf. by exists x, w1.
Qed.

Lemma logs_only_ret {A} (x : A) : logs_only (ret x).
Proof. exists (inr x), []. intros w. unfold ret. by rewrite add_log_nil. Qed.

Lemma logs_only_raise {A} (e : exn) : logs_only (@raise A e).
Proof. exists (inl e), []. intros w. unfold raise. by rewrite add_log_nil. Qed.

Lemma logs_only_lift {A} (r : error + A) : logs_only (lift r).
Proof. destruct r; [apply logs_only_raise | apply logs_only_ret]. Qed.

Lemma logs_only_log (lvl : level) (msg : string) : logs_only (log_msg lvl msg).
Proof. by exists (inr tt), [(lvl, msg)]. Qed.

Lemma logs_only_log_all (entries : list (level * string)) :
  logs_only (log_all entries).
Proof. by exists (inr tt), entries. Qed.

Lemma logs_only_bind {A B} (m : M A) (f : A → M B) :
  logs_only m → (∀ x, logs_only (f x)) → logs_only (bind m f).
Proof.
  intros (r & entries & Hm) Hf. destruct r as [e | x].
  - exists (inl e), entries. intros w. unfold bind. by rewrite Hm.
  - destruct (Hf x) as (r' & entries' & Hfx).
    exists r', (entries ++ entries')%list. intros w. unfold bind.
    by rewrite Hm, Hfx, add_log_app.
Qed.

Create HintDb logs.
#[local] Hint Resolve logs_only_ret logs_only_raise logs_only_lift
  logs_only_log : logs.

Lemma logs_only_result {A} (m : M A) (w1 w2 : world) :
  logs_only m → fst (m w1) = fst (m w2).
Proof. intros (r & entries & Hm). by rewrite !Hm. Qed.

(** ** Strings *)

Lemma append_nil (s : string) : "" +:+ s = s.
Proof. reflexivity. Qed.

Lemma append_cons (a : ascii) (s t : string) :
  String a s +:+ t = String a (s +:+ t).
Proof. reflexivity. Qed.

Lemma prefix_app (p s : string) :
  String.prefix p s = true ↔ ∃ rest, s = p +:+ rest.
Proof.
  revert s. induction p as [| a p IH]; intros s.
  - split; [intros _; by exists s | intros _; by destruct s].
  - destruct s as [| b s]; simpl; [split; [done | by intros [rest Hrest]] |].
    destruct (ascii_dec a b) as [-> | Hne].
    + rewrite IH.
      split; intros [rest Hrest]; exists rest;
        rewrite (append_cons b p rest) in *; congruence.
    + split; [done |]. intros [rest Hrest].
      rewrite (append_cons a p rest) in Hrest. congruence.
Qed.





Section Properties.
Context `{Lib}.

(** ** The page configuration is a function of its inputs *)

Lemma logs_only_getitem (d : dict) (key : string) : logs_only (getitem d key).
Proof. unfold getitem. destruct (d !! key); auto with logs. Qed.

Lemma logs_only_seed (h : Handler) : logs_only (seed_page_config h).
Proof.
  unfold seed_page_config. apply logs_only_bind.
  - destruct (st_token (settings h)); auto with logs.
  - auto with logs.
Qed.

Lemma logs_only_server_root (h : Handler) : logs_only (server_root_dir h).
Proof. unfold server_root_dir. apply logs_only_bind; auto with logs. Qed.

Lemma logs_only_preferred_path (h : Handler) (root : string) (pc : dict) :
  logs_only (set_preferred_path h root pc).
Proof.
  unfold set_preferred_path. destruct (preferred_path h root); [| auto with logs].
  apply logs_only_bind; auto with logs.
Qed.

Lemma logs_only_full_url (app : App) (base name : string) (pc : dict) :
  logs_only (set_full_url app base name pc).
Proof.
  unfold set_full_url. destruct (endswith name "_url"); [| auto with logs].
  destruct (getattr app name); auto with logs.
Qed.

Lemma logs_only_full_urls (app : App) (base : string) (names : list string) :
  ∀ pc, logs_only (set_full_urls app base names pc).
Proof.
  induction names as [| name names IH]; intros pc; simpl; [auto with logs |].
  apply logs_only_bind; [apply logs_only_full_url | auto].
Qed.

Lemma logs_only_get_page_config (h : Handler) : logs_only (get_page_config h).
Proof.
  unfold get_page_config.
  apply logs_only_bind; [apply logs_only_seed | intros pc0].
  apply logs_only_bind; [apply logs_only_server_root | intros root].
  apply logs_only_bind; [apply logs_only_preferred_path | intros pc1].
  apply logs_only_bind; [apply logs_only_lift | intros url].
  apply logs_only_bind; [apply logs_only_full_urls | intros pc2].
  apply logs_only_bind; [apply logs_only_log_all | auto with logs].
Qed.

(** ** The layers of the page configuration *)

Lemma set_preferred_path_run (h : Handler) (root : string) (pc : dict) (w : world) :
  set_preferred_path h root pc w
  = (inr (<["preferredPath" := VStr (preferred_path_entry h root)]> pc),
     add_log (preferred_path_log h root) w).
Proof.
  unfold set_preferred_path, preferred_path_entry, preferred_path_log.
  destruct (preferred_path h root) as [e | p].
  - reflexivity.
  - unfold ret. by rewrite add_log_nil.
Qed.

Lemma set_full_urls_run (app : App) (base : string) (names : list string) :
  ∀ (pc : dict) (w : world),
    forallb (λ name, negb (endswith name "_url") || is_str (getattr app name))
            names = true →
    set_full_urls app base names pc w = (inr (full_urls app base names pc), w).
Proof.
  induction names as [| name names IH]; intros pc w Hstr; simpl in *; [done |].
  apply andb_prop in Hstr as [Hname Hnames].
  unfold bind, set_full_url.
  destruct (endswith name "_url"); simpl in *.
  - destruct (getattr app name); try discriminate. simpl.
    unfold full_urls in IH. by rewrite IH.
  - unfold full_urls in IH. by rewrite IH.
Qed.

Lemma set_full_urls_inr (app : App) (base : string) (names : list string) :
  ∀ (pc pc' : dict) (w w' : world),
    set_full_urls app base names pc w = (inr pc', w') →
    forallb (λ name, negb (endswith name "_url") || is_str (getattr app name))
            names = true.
Proof.
  induction names as [| name names IH]; intros pc pc' w w' Hrun; simpl in *; [done |].
  apply bind_inr in Hrun as (pc1 & w1 & Hstep & Hrest).
  apply andb_true_intro. split; [| by eapply IH].
  unfold set_full_url in Hstep.
  destruct (endswith name "_url"); [| done].
  by destruct (getattr app name).
Qed.

Lemma full_mathjax_url_inr (h : Handler) (absolute : bool) :
  url_is_absolute (mathjax_url h) = inr absolute →
  full_mathjax_url h
  = inr (if negb absolute && negb (startswith (mathjax_url h) (base_url h))
         then ujoin [base_url h; mathjax_url h]
         else mathjax_url h).
Proof.
  intros Habs. unfold full_mathjax_url. fold (mathjax_url h). by rewrite Habs.
Qed.

Lemma full_mathjax_url_resolved (h : Handler) (url : string) :
  full_mathjax_url h = inr url → resolved_mathjax_url h = url.
Proof. intros Hurl. unfold resolved_mathjax_url. by rewrite Hurl. Qed.

Lemma get_page_config_steps (h : Handler) (w : world) (token : value)
    (root url : string) :
  st_token (settings h) = Some token →
  expanded_root h = inr root →
  full_mathjax_url h = inr url →
  get_page_config h w
  = bind (set_full_urls (extensionapp h) (default "/" (st_base_url (settings h)))
            trait_names
            (set_traits (extensionapp h) trait_names
               (set_mathjax h url
                  (<["preferredPath" := VStr (preferred_path_entry h (normpath root))]>
                   (seed_dict h token)))))
         (λ pc, bind (log_all (library_log h))
                  (λ _, ret (apply_hook h
                      (recursive_update pc
                         (lab_get_page_config
                            (extra_labextensions_path (extensionapp h)
                             ++ labextensions_path (extensionapp h))%list)))))
         (add_log (preferred_path_log h (normpath root)) w).
Proof.
  intros Htoken Hroot Hurl.
  unfold get_page_config, seed_page_config, server_root_dir.
  unfold expanded_root in Hroot. rewrite Htoken, Hroot, Hurl.
  unfold bind at 1 2 3 4. simpl.
  unfold bind at 1. rewrite set_preferred_path_run.
  reflexivity.
Qed.

(** [get_page_config] returns when the token is set, the server root
    expands, the MathJax URL parses and the URL traits hold strings. *)
Lemma get_page_config_returns (h : Handler) (w : world) (token : value)
    (root : string) (absolute : bool) :
  st_token (settings h) = Some token →
  expanded_root h = inr root →
  url_is_absolute (mathjax_url h) = inr absolute →
  url_traits_are_strings (extensionapp h) = true →
  get_page_config h w
  = (inr (assembled h token root),
     add_log (preferred_path_log h (normpath root) ++ library_log h) w).
Proof.
  intros Htoken Hroot Habs Hstr.
  pose proof (full_mathjax_url_inr h absolute Habs) as Hurl.
  rewrite (get_page_config_steps h w token root _ Htoken Hroot Hurl).
  unfold bind at 1. rewrite (set_full_urls_run _ _ _ _ _ Hstr).
  unfold bind, log_all, ret. simpl.
  unfold assembled, merged. rewrite (full_mathjax_url_resolved h _ Hurl).
  unfold add_log. simpl. by rewrite app_assoc.
Qed.

Lemma get_page_config_inr (h : Handler) (w w' : world) (pc : dict) :
  get_page_config h w = (inr pc, w') →
  ∃ token root,
    st_token (settings h) = Some token
    ∧ expanded_root h = inr root
    ∧ (∃ absolute, url_is_absolute (mathjax_url h) = inr absolute)
    ∧ url_traits_are_strings (extensionapp h) = true
    ∧ pc = assembled h token root.
Proof.
  intros Hrun. pose proof Hrun as Hrun'.
  unfold get_page_config in Hrun.
  apply bind_inr in Hrun as (pc0 & w0 & Hseed & Hrun).
  apply bind_inr in Hrun as (sr & w1 & Hroot & Hrun).
  apply bind_inr in Hrun as (pc1 & w2 & Hpref & Hrun).
  apply bind_inr in Hrun as (url & w3 & Hurl & Hrun).
  apply bind_inr in Hrun as (pc3 & w4 & Hfull & _).
  unfold seed_page_config in Hseed.
  apply bind_inr in Hseed as (token & w5 & Htoken & _).
  destruct (st_token (settings h)) as [t |] eqn:Ht; [| discriminate].
  unfold server_root_dir in Hroot.
  apply bind_inr in Hroot as (root & w6 & Hexp & _).
  fold (expanded_root h) in Hexp.
  destruct (expanded_root h) as [e | root'] eqn:Hr; [discriminate |].
  assert (Habs : ∃ absolute, url_is_absolute (mathjax_url h) = inr absolute).
  { unfold full_mathjax_url in Hurl. fold (mathjax_url h) in Hurl.
    destruct (url_is_absolute (mathjax_url h)) as [e | absolute];
      [discriminate | by eexists]. }
  apply set_full_urls_inr in Hfull.
  exists t, root'. repeat split; try done.
  destruct Habs as [absolute Habs].
  rewrite (get_page_config_returns h w t root' absolute Ht Hr Habs Hfull) in Hrun'.
  congruence.
Qed.

Lemma recursive_update_lookup (target new : dict) (k : string) :
  recursive_update target new !! k
  = match target !! k, new !! k with
    | Some x, Some y => Some (deep_merge x y)
    | Some x, None => Some x
    | None, y => y
    end.
Proof.
  unfold recursive_update. rewrite lookup_union_with.
  by destruct (target !! k), (new !! k).
Qed.

Lemma later_layers_lookup (h : Handler) (pc : dict) (k : string) :
  extensions_keep h k →
  hook_keeps h k →
  apply_hook h
    (recursive_update pc
       (lab_get_page_config
          (extra_labextensions_path (extensionapp h)
           ++ labextensions_path (extensionapp h))%list)) !! k
  = pc !! k.
Proof.
  intros Hext Hhook. rewrite Hhook, recursive_update_lookup.
  unfold extensions_keep in Hext. rewrite Hext. by destruct (pc !! k).
Qed.

Lemma set_traits_lookup_free (app : App) (k : string) (names : list string) :
  ∀ pc : dict,
    forallb (λ name, negb (String.eqb (_camelCase name) k)) names = true →
    set_traits app names pc !! k = pc !! k.
Proof.
  unfold set_traits.
  induction names as [| name names IH]; intros pc Hfree; simpl in *; [done |].
  apply andb_prop in Hfree as [Hname Hnames].
  rewrite IH by done. apply lookup_insert_ne.
  apply negb_true_iff in Hname. by apply String.eqb_neq in Hname.
Qed.

Lemma full_urls_lookup_free (app : App) (base k : string) (names : list string) :
  ∀ pc : dict,
    forallb (λ name, negb (endswith name "_url")
                     || negb (String.eqb (_camelCase ("full_" +:+ name)) k))
            names = true →
    full_urls app base names pc !! k = pc !! k.
Proof.
  unfold full_urls.
  induction names as [| name names IH]; intros pc Hfree; simpl in *; [done |].
  apply andb_prop in Hfree as [Hname Hnames].
  rewrite IH by done.
  destruct (endswith name "_url"); simpl in *; [| done].
  destruct (getattr app name); try done.
  apply lookup_insert_ne.
  apply negb_true_iff in Hname. by apply String.eqb_neq in Hname.
Qed.

Lemma trait_key_free_split (k : string) :
  trait_key_free k = true →
  forallb (λ name, negb (String.eqb (_camelCase name) k)) trait_names = true
  ∧ forallb (λ name, negb (endswith name "_url")
                     || negb (String.eqb (_camelCase ("full_" +:+ name)) k))
            trait_names = true.
Proof.
  unfold trait_key_free. induction trait_names as [| name names IH]; simpl; [done |].
  intros Hfree. apply andb_prop in Hfree as [Hname Hnames].
  apply andb_prop in Hname as [-> ->]. simpl. by apply IH.
Qed.

(** An entry written before the trait loops reaches the caller when no
    later layer writes its key. *)
Lemma assembled_lookup (h : Handler) (token : value) (root k : string) :
  trait_key_free k = true →
  extensions_keep h k →
  hook_keeps h k →
  assembled h token root !! k
  = set_mathjax h (resolved_mathjax_url h)
      (<["preferredPath" := VStr (preferred_path_entry h (normpath root))]>
       (seed_dict h token)) !! k.
Proof.
  intros Hfree Hext Hhook. unfold assembled, merged.
  apply trait_key_free_split in Hfree as [Hown Hfull].
  rewrite later_layers_lookup by done.
  rewrite full_urls_lookup_free by done.
  by rewrite set_traits_lookup_free.
Qed.

Lemma set_full_urls_raises (app : App) (base : string) (names : list string) :
  ∀ (pc : dict) (w : world),
    forallb (λ name, negb (endswith name "_url") || is_str (getattr app name))
            names = false →
    set_full_urls app base names pc w
    = (inl (Raise (mkError AttributeError "not a string")), w).
Proof.
  induction names as [| name names IH]; intros pc w Hstr; simpl in *; [done |].
  unfold bind, set_full_url.
  destruct (endswith name "_url"); simpl in *; [| by apply IH].
  destruct (getattr app name); simpl in *; try done. by apply IH.
Qed.

Lemma get_page_config_result (h : Handler) (w : world) :
  fst (get_page_config h w) = page_config_result h.
Proof.
  unfold page_config_result.
  destruct (st_token (settings h)) as [token |] eqn:Htoken.
  - destruct (expanded_root h) as [e | root] eqn:Hroot.
    + unfold get_page_config, seed_page_config, server_root_dir.
      unfold expanded_root in Hroot. rewrite Htoken, Hroot. reflexivity.
    + destruct (full_mathjax_url h) as [e | url] eqn:Hurl.
      * unfold get_page_config, seed_page_config, server_root_dir.
        unfold expanded_root in Hroot. rewrite Htoken, Hroot, Hurl.
        unfold bind at 1 2 3 4. simpl.
        unfold bind at 1. by rewrite set_preferred_path_run.
      * rewrite (get_page_config_steps h w token root url Htoken Hroot Hurl).
        unfold bind at 1.
        destruct (url_traits_are_strings (extensionapp h)) eqn:Hstr.
        -- rewrite (set_full_urls_run _ _ _ _ _ Hstr).
           unfold assembled, merged.
           by rewrite (full_mathjax_url_resolved h _ Hurl).
        -- by rewrite (set_full_urls_raises _ _ _ _ _ Hstr).
  - unfold get_page_config, seed_page_config. by rewrite Htoken.
Qed.

(** The configuration before the hook does not change with the fields of
    the handler that belong to the request. *)
Lemma merged_request (s : Settings) (a : App) (pd b n : string)
    (r1 r2 : string) (c1 c2 : ContentsManager) (token : value) (root : string) :
  merged (mkHandler s a pd b n r1 c1) token root
  = merged (mkHandler s a pd b n r2 c2) token root.
Proof. reflexivity. Qed.

(** C9: two runs of [get_page_config] on the same inputs (the settings; the
    application with its trait values; the preferred directory, the base
    URL and the name; the library and the disk, fixed by the context; a
    hook that answers the two handlers alike) return the same page
    configuration or raise the same exception, whatever the requests and
    whatever the log and the world held before. *)
Theorem get_page_config_deterministic (h1 h2 : Handler) (w1 w2 : world) :
  settings h1 = settings h2 →
  extensionapp h1 = extensionapp h2 →
  preferred_dir h1 = preferred_dir h2 →
  base_url h1 = base_url h2 →
  name h1 = name h2 →
  (∀ page_config, apply_hook h1 page_config = apply_hook h2 page_config) →
  fst (get_page_config h1 w1) = fst (get_page_config h2 w2).
Proof.
  intros Hs Ha Hpd Hb Hn Hhook. rewrite !get_page_config_result.
  destruct h1 as [s1 a1 pd1 b1 n1 r1 c1], h2 as [s2 a2 pd2 b2 n2 r2 c2].
  simpl in Hs, Ha, Hpd, Hb, Hn. subst.
  unfold page_config_result, assembled.
  change (expanded_root (mkHandler s2 a2 pd2 b2 n2 r1 c1))
    with (expanded_root (mkHandler s2 a2 pd2 b2 n2 r2 c2)).
  change (full_mathjax_url (mkHandler s2 a2 pd2 b2 n2 r1 c1))
    with (full_mathjax_url (mkHandler s2 a2 pd2 b2 n2 r2 c2)).
  cbn [settings extensionapp].
  destruct (st_token s2) as [token |]; [| done].
  destruct (expanded_root _) as [e | root]; [done |].
  destruct (full_mathjax_url _) as [e | url]; [done |].
  destruct (url_traits_are_strings _); [| done].
  rewrite Hhook.
  by rewrite (merged_request s2 a2 pd2 b2 n2 r1 r2 c1 c2 token root).
Qed.

Lemma full_key_unique_free (name : string) (names : list string) :
  name ∉ names →
  forallb (λ name',
    negb (endswith name' "_url")
    || negb (String.eqb (_camelCase ("full_" +:+ name'))
                        (_camelCase ("full_" +:+ name)))
    || String.eqb name' name) names = true →
  forallb (λ name',
    negb (endswith name' "_url")
    || negb (String.eqb (_camelCase ("full_" +:+ name'))
                        (_camelCase ("full_" +:+ name)))) names = true.
Proof.
  induction names as [| n names IH]; simpl; [done |].
  intros [Hne Hnotin]%not_elem_of_cons Huniq.
  apply andb_prop in Huniq as [Hn Hnames].
  rewrite IH by done. rewrite andb_true_r.
  apply orb_prop in Hn as [Hn | Heq]; [done |].
  apply String.eqb_eq in Heq. congruence.
Qed.

Lemma full_urls_lookup_unique (app : App) (base name raw : string)
    (names : list string) :
  ∀ pc : dict,
    name ∈ names →
    endswith name "_url" = true →
    getattr app name = VStr raw →
    forallb (λ name',
      negb (endswith name' "_url")
      || negb (String.eqb (_camelCase ("full_" +:+ name'))
                          (_camelCase ("full_" +:+ name)))
      || String.eqb name' name) names = true →
    full_urls app base names pc !! _camelCase ("full_" +:+ name)
    = Some (VStr (full_url base raw)).
Proof.
  induction names as [| n names IH]; intros pc Hin Hurl Hraw Huniq.
  - by apply elem_of_nil in Hin.
  - simpl in Huniq. apply andb_prop in Huniq as [Hn Hnames].
    change (full_urls app base (n :: names) pc)
      with (full_urls app base names
              (if endswith n "_url" then
                 match getattr app n with
                 | VStr raw' =>
                     <[_camelCase ("full_" +:+ n) := VStr (full_url base raw')]> pc
                 | _ => pc
                 end
               else pc)).
    destruct (decide (name ∈ names)) as [Hlater | Hlast]; [by apply IH |].
    apply elem_of_cons in Hin as [-> | Hin]; [| done].
    rewrite Hurl, Hraw.
    rewrite full_urls_lookup_free by (by apply full_key_unique_free).
    apply lookup_insert_eq.
Qed.


(** C4, amended: when no later layer writes the key "fullMathjaxUrl", its
    entry in the returned page configuration is the configured MathJax
    URL unchanged if that URL is absolute, and also if it is not absolute
    but starts with the base URL; it is the base URL joined with the
    configured URL if that URL is not absolute and does not start with the
    base URL. *)
Theorem fullMathjaxUrl_unless_overridden (h : Handler) (w : world) (pc : dict) :
  fst (get_page_config h w) = inr pc →
  trait_key_free "fullMathjaxUrl" = true →
  extensions_keep h "fullMathjaxUrl" →
  hook_keeps h "fullMathjaxUrl" →
  let url := mathjax_url h in
  (url_is_absolute url = inr true → pc !! "fullMathjaxUrl" = Some (VStr url))
  ∧ (url_is_absolute url = inr false → startswith url (base_url h) = true →
       pc !! "fullMathjaxUrl" = Some (VStr url))
  ∧ (url_is_absolute url = inr false → startswith url (base_url h) = false →
       pc !! "fullMathjaxUrl" = Some (VStr (ujoin [base_url h; url]))).
Proof.
  intros Hrun Hfree Hext Hhook url.
  destruct (get_page_config h w) as [r w'] eqn:Hgpc. simpl in Hrun. subst r.
  apply get_page_config_inr in Hgpc as (token & root & _ & _ & _ & _ & ->).
  rewrite assembled_lookup by done.
  unfold set_mathjax. rewrite lookup_insert_ne by done.
  rewrite lookup_insert_eq.
  unfold resolved_mathjax_url, full_mathjax_url. fold (mathjax_url h). fold url.
  repeat split.
  - by intros ->.
  - intros -> ->. done.
  - intros -> ->. done.
Qed.

(** C5, amended: for a trait name ending in "_url", when no other URL
    trait has the same full-URL key, the extensions contribute nothing
    under that key and the hook returns it unchanged, the returned page
    configuration holds under the camelCase form of "full_" followed by
    the name the raw value of the trait if [is_url] accepts it, and
    otherwise the base URL of the settings joined with the raw value. *)
Theorem full_url_unless_overridden (h : Handler) (w : world) (pc : dict)
    (name : string) :
  fst (get_page_config h w) = inr pc →
  name ∈ trait_names →
  endswith name "_url" = true →
  full_key_unique name = true →
  extensions_keep h (_camelCase ("full_" +:+ name)) →
  hook_keeps h (_camelCase ("full_" +:+ name)) →
  ∃ raw,
    getattr (extensionapp h) name = VStr raw
    ∧ pc !! _camelCase ("full_" +:+ name)
      = Some (VStr (if is_url raw then raw
                    else ujoin [default "/" (st_base_url (settings h)); raw])).
Proof.
  intros Hrun Hin Hurl Huniq Hext Hhook.
  destruct (get_page_config h w) as [r w'] eqn:Hgpc. simpl in Hrun. subst r.
  apply get_page_config_inr in Hgpc as (token & root & _ & _ & _ & Hstr & ->).
  assert (Hraw : ∃ raw, getattr (extensionapp h) name = VStr raw).
  { unfold url_traits_are_strings in Hstr.
    rewrite forallb_forall in Hstr.
    apply list_elem_of_In in Hin. specialize (Hstr name Hin).
    rewrite Hurl in Hstr. simpl in Hstr.
    destruct (getattr (extensionapp h) name); try discriminate. by eexists. }
  destruct Hraw as [raw Hraw]. exists raw. split; [done |].
  unfold assembled, merged. rewrite later_layers_lookup by done.
  rewrite (full_urls_lookup_unique _ _ name raw) by done.
  unfold full_url. by destruct (is_url raw).
Qed.

(** ** The tree handler *)

Lemma no_http_error_bind {A B} (m : M A) (f : A → M B) :
  no_http_error m → (∀ x, no_http_error (f x)) → no_http_error (bind m f).
Proof.
  intros Hm Hf w status msg. unfold bind.
  destruct (m w) as [[e | x] w1] eqn:E.
  - specialize (Hm w status msg). rewrite E in Hm. simpl in *. congruence.
  - apply Hf.
Qed.

Lemma no_http_error_ret {A} (x : A) : no_http_error (ret x).
Proof. intros w status msg. discriminate. Qed.

Lemma no_http_error_builtin {A} (e : error) : no_http_error (@raise A (Raise e)).
Proof. intros w status msg. discriminate. Qed.

Lemma no_http_error_lift {A} (r : error + A) : no_http_error (lift r).
Proof.
  destruct r; [apply no_http_error_builtin | apply no_http_error_ret].
Qed.

Lemma no_http_error_full_urls (app : App) (base : string) (names : list string) :
  ∀ pc, no_http_error (set_full_urls app base names pc).
Proof.
  induction names as [| name names IH]; intros pc; simpl.
  - apply no_http_error_ret.
  - apply no_http_error_bind; [| auto].
    unfold set_full_url. destruct (endswith name "_url").
    + destruct (getattr app name);
        (apply no_http_error_builtin || apply no_http_error_ret).
    + apply no_http_error_ret.
Qed.

Lemma no_http_error_get_page_config (h : Handler) :
  no_http_error (get_page_config h).
Proof.
  unfold get_page_config.
  apply no_http_error_bind; [| intros pc0].
  { unfold seed_page_config. apply no_http_error_bind.
    - destruct (st_token (settings h));
        [apply no_http_error_ret | apply no_http_error_builtin].
    - intros t. apply no_http_error_ret. }
  apply no_http_error_bind; [| intros root].
  { unfold server_root_dir. apply no_http_error_bind.
    - apply no_http_error_lift.
    - intros x. apply no_http_error_ret. }
  apply no_http_error_bind; [| intros pc1].
  { unfold set_preferred_path. destruct (preferred_path h root).
    - apply no_http_error_bind; [| intros []; apply no_http_error_ret].
      intros w status msg. discriminate.
    - apply no_http_error_ret. }
  apply no_http_error_bind; [apply no_http_error_lift | intros url].
  apply no_http_error_bind; [apply no_http_error_full_urls | intros pc2].
  apply no_http_error_bind; [| intros []; apply no_http_error_ret].
  intros w status msg. discriminate.
Qed.

Lemma no_http_error_tree_listing (h : Handler) (path : string) :
  no_http_error (tree_listing h path).
Proof.
  unfold tree_listing. apply no_http_error_bind.
  - apply no_http_error_get_page_config.
  - intros pc. apply no_http_error_ret.
Qed.

Lemma tree_listing_result (h : Handler) (path : string) (w1 w2 : world) :
  fst (tree_listing h path w1) = fst (tree_listing h path w2).
Proof.
  apply logs_only_result. unfold tree_listing.
  apply logs_only_bind; [apply logs_only_get_page_config | auto with logs].
Qed.

(** The three ways through the handler. *)
Lemma TreeHandler_get_directory (h : Handler) (path : string) (w : world) :
  let p := strip slash path in
  let cm := contents_manager h in
  dir_exists cm p = true →
  TreeHandler_get h path w =
    if is_hidden cm p then
      if allow_hidden cm
      then tree_listing h p (add_probes [DirExists p; IsHidden p; AllowHidden] w)
      else (inl (HTTPError 404 None),
            add_log [(INFO, "Refusing to serve hidden directory, via 404 Error")]
                    (add_probes [DirExists p; IsHidden p; AllowHidden] w))
    else tree_listing h p (add_probes [DirExists p; IsHidden p] w).
Proof.
  cbv zeta. intros Hdir.
  unfold TreeHandler_get, cm_dir_exists, cm_is_hidden, cm_allow_hidden, bind,
    record_probe, log_msg, raise, ret. simpl.
  rewrite Hdir. simpl.
  destruct (is_hidden _ _); simpl; [destruct (allow_hidden _); simpl |];
    unfold add_probes, add_log; simpl; by rewrite <- ?app_assoc.
Qed.

Lemma TreeHandler_get_file (h : Handler) (path : string) (w : world) :
  let p := strip slash path in
  let cm := contents_manager h in
  dir_exists cm p = false →
  file_exists cm p = true →
  let url := redirect_url h (get cm p false) p in
  TreeHandler_get h path w =
    (inr (Redirect url),
     add_headers [("Location", url)]
       (add_log [(DEBUG, "Redirecting " +:+ request_path h +:+ " to " +:+ url)]
          (add_probes [DirExists p; FileExists p; Get p false] w))).
Proof.
  cbv zeta. intros Hdir Hfile.
  unfold TreeHandler_get, cm_dir_exists, cm_file_exists, tree_redirect, cm_get,
    bind, record_probe, log_msg, set_header, ret. simpl.
  rewrite Hdir. simpl. rewrite Hfile. simpl.
  unfold add_headers, add_log, add_probes; simpl. by rewrite <- !app_assoc.
Qed.

Lemma TreeHandler_get_missing (h : Handler) (path : string) (w : world) :
  let p := strip slash path in
  let cm := contents_manager h in
  dir_exists cm p = false →
  file_exists cm p = false →
  TreeHandler_get h path w =
    (inl (HTTPError 404 None), add_probes [DirExists p; FileExists p] w).
Proof.
  cbv zeta. intros Hdir Hfile.
  unfold TreeHandler_get, cm_dir_exists, cm_file_exists, bind, record_probe,
    raise, ret. simpl.
  rewrite Hdir. simpl. rewrite Hfile. simpl.
  unfold add_probes; simpl. by rewrite <- !app_assoc.
Qed.

(** The listing branch passes on what [get_page_config] does. *)
Lemma tree_listing_outcome (h : Handler) (path : string) (w : world) :
  fst (tree_listing h path w)
  = match fst (get_page_config h w) with
    | inr pc => inr (Write (render_template "tree.html"
                              (<["treePath" := VStr path]> pc)))
    | inl e => inl e
    end.
Proof.
  unfold tree_listing, bind.
  by destruct (get_page_config h w) as [[e | pc] w'].
Qed.

(** C1, amended: on the request path with its surrounding slashes
    stripped, the tree handler raises the 404 error exactly when the path
    is an existing directory that is hidden while hidden paths are not
    served, or when it is neither an existing directory nor an existing
    file. In the first case the refusal is logged at the level INFO. In
    every other case a file is redirected, and a directory is answered
    with the rendered listing only if [get_page_config] returns: when it
    raises, its exception is the outcome of the handler, and this
    exception is never the 404 error. *)
Theorem TreeHandler_get_not_found (h : Handler) (path : string) (w : world) :
  let p := strip slash path in
  let cm := contents_manager h in
  let hidden := dir_exists cm p && is_hidden cm p && negb (allow_hidden cm) in
  let missing := negb (dir_exists cm p) && negb (file_exists cm p) in
  (fst (TreeHandler_get h path w) = inl (HTTPError 404 None)
     ↔ hidden || missing = true)
  ∧ (hidden = true →
       log (snd (TreeHandler_get h path w))
       = (log w ++ [(INFO, "Refusing to serve hidden directory, via 404 Error")])%list)
  ∧ (hidden || missing = false →
       if dir_exists cm p
       then match fst (get_page_config h w) with
            | inr pc =>
                fst (TreeHandler_get h path w)
                = inr (Write (render_template "tree.html"
                                (<["treePath" := VStr p]> pc)))
            | inl e => fst (TreeHandler_get h path w) = inl e
            end
       else fst (TreeHandler_get h path w)
            = inr (Redirect (redirect_url h (get cm p false) p))).
Proof.
  cbv zeta.
  destruct (dir_exists (contents_manager h) (strip slash path)) eqn:Hdir.
  - rewrite (TreeHandler_get_directory h path w Hdir).
    assert (Hlisting : ∀ w',
      (fst (tree_listing h (strip slash path) w') = inl (HTTPError 404 None)
         ↔ false = true)
      ∧ (false = true →
           log (snd (tree_listing h (strip slash path) w'))
           = (log w ++ [(INFO, "Refusing to serve hidden directory, via 404 Error")])%list)
      ∧ (false = false →
           match fst (get_page_config h w) with
           | inr pc =>
               fst (tree_listing h (strip slash path) w')
               = inr (Write (render_template "tree.html"
                               (<["treePath" := VStr (strip slash path)]> pc)))
           | inl e => fst (tree_listing h (strip slash path) w') = inl e
           end)).
    { intros w'. split; [split; [| done] | split; [done |]].
      - intros Hget. destruct (no_http_error_tree_listing h _ _ _ _ Hget).
      - intros _.
        rewrite (tree_listing_result h (strip slash path) w' w).
        rewrite tree_listing_outcome.
        by destruct (fst (get_page_config h w)). }
    destruct (is_hidden _ _); [destruct (allow_hidden _) |]; simpl;
      try apply Hlisting.
    repeat split; done.
  - destruct (file_exists (contents_manager h) (strip slash path)) eqn:Hfile.
    + rewrite (TreeHandler_get_file h path w Hdir Hfile). simpl.
      repeat split; done.
    + rewrite (TreeHandler_get_missing h path w Hdir Hfile). simpl.
      repeat split; done.
Qed.

(** C2: when the stripped path is not an existing directory but is an
    existing file, the handler asks the contents manager for the model of
    the entry without its content and redirects to the base URL joined
    with "notebooks" (if the type of the model is "notebook") or with
    "files" (any other type) and with the escaped path. *)
Theorem TreeHandler_get_redirects_file (h : Handler) (path : string) (w : world) :
  let p := strip slash path in
  let cm := contents_manager h in
  dir_exists cm p = false →
  file_exists cm p = true →
  let target :=
    if String.eqb (model_type (get cm p false)) "notebook"
    then "notebooks" else "files" in
  fst (TreeHandler_get h path w)
    = inr (Redirect (ujoin [base_url h; target; url_escape p]))
  ∧ probes (snd (TreeHandler_get h path w))
    = (probes w ++ [DirExists p; FileExists p; Get p false])%list.
Proof.
  cbv zeta. intros Hdir Hfile.
  rewrite (TreeHandler_get_file h path w Hdir Hfile). simpl.
  split; [| done]. unfold redirect_url.
  by destruct (String.eqb _ _).
Qed.

(** C10: hidden paths are refused for directories only. When the stripped
    path is not an existing directory but is an existing file, the handler
    redirects to the "notebooks" or the "files" URL of the path; it makes
    no call that asks whether the path is hidden or whether hidden paths
    are served, and its outcome is the same whatever the answers to these
    questions would be. *)
Theorem TreeHandler_get_file_ignores_hidden (h : Handler) (path : string)
    (w : world) :
  let p := strip slash path in
  let cm := contents_manager h in
  dir_exists cm p = false →
  file_exists cm p = true →
  (fst (TreeHandler_get h path w)
     = inr (Redirect (ujoin [base_url h; "notebooks"; url_escape p]))
   ∨ fst (TreeHandler_get h path w)
     = inr (Redirect (ujoin [base_url h; "files"; url_escape p])))
  ∧ (∃ calls, probes (snd (TreeHandler_get h path w)) = (probes w ++ calls)%list
              ∧ forallb (λ c, negb (hidden_probe c)) calls = true)
  ∧ ∀ hidden allow,
      TreeHandler_get (with_hidden h hidden allow) path w = TreeHandler_get h path w.
Proof.
  cbv zeta. intros Hdir Hfile.
  rewrite (TreeHandler_get_file h path w Hdir Hfile). simpl.
  split; [| split].
  - unfold redirect_url. destruct (String.eqb _ _); auto.
  - by exists [DirExists (strip slash path); FileExists (strip slash path);
               Get (strip slash path) false].
  - intros hidden allow.
    by rewrite (TreeHandler_get_file (with_hidden h hidden allow) path w Hdir Hfile).
Qed.

(** ** The custom stylesheet *)


Lemma custom_css_file_pure (page_config : dict) (w : world) :
  snd (custom_css_file page_config w) = w.
Proof.
  unfold custom_css_file, getitem, bind, ret, raise.
  destruct (page_config !! "jupyterConfigDir") as [config_dir |]; simpl; [| done].
  destruct (is_file _); [done |].
  destruct (page_config !! "staticDir") as [[] |]; simpl; try done.
  by destruct (re_match_static _).
Qed.

Lemma no_http_error_custom_css_file (page_config : dict) :
  no_http_error (custom_css_file page_config).
Proof.
  intros w status msg.
  unfold custom_css_file, getitem, bind, ret, raise.
  destruct (page_config !! "jupyterConfigDir") as [config_dir |]; simpl; [| done].
  destruct (is_file _); [done |].
  destruct (page_config !! "staticDir") as [[] |]; simpl; try done.
  by destruct (re_match_static _).
Qed.

(** The stylesheet handler raises no 404 error. *)
Lemma CustomCssHandler_get_not_404 (h : Handler) (w : world) (msg : option string) :
  fst (CustomCssHandler_get h w) ≠ inl (HTTPError 404 msg).
Proof.
  unfold CustomCssHandler_get, bind at 1. simpl.
  unfold bind at 1.
  destruct (get_page_config h _) as [[e | pc] w1] eqn:Hpc.
  { simpl. intros [= ->].
    eapply (no_http_error_get_page_config h). exact (f_equal fst Hpc). }
  unfold bind at 1.
  destruct (custom_css_file pc w1) as [[e | file] w2] eqn:Hfile.
  { simpl. intros [= ->].
    eapply (no_http_error_custom_css_file pc). exact (f_equal fst Hfile). }
  destruct (open_read file) as [e | css]; [| done].
  destruct (is_IOError e); [| done].
  unfold bind, log_msg, raise. simpl. congruence.
Qed.

(** C7, amended: once the stylesheet to open is chosen, a failure to read
    it that is an [IOError] (the file is absent, or present and not
    readable) is logged at the level ERROR and the handler raises the error
    500 with the message "Custom CSS file not found."; any other exception
    of the read is the outcome of the handler, with nothing logged. The
    handler never raises the error 404. When the file is read, its text is
    written, under the content type "text/css". *)
Theorem CustomCssHandler_get_read (h : Handler) (w w1 : world)
    (page_config : dict) (file : string) :
  get_page_config h (snd (set_header "Content-Type" "text/css" w))
    = (inr page_config, w1) →
  fst (custom_css_file page_config w1) = inr file →
  (∀ e, open_read file = inl e → is_IOError e = true →
     CustomCssHandler_get h w
     = (inl (HTTPError 500 (Some "Custom CSS file not found.")),
        add_log [(ERROR, "Error reading custom CSS file: " +:+ message e)] w1))
  ∧ (∀ e, open_read file = inl e → is_IOError e = false →
       CustomCssHandler_get h w = (inl (Raise e), w1))
  ∧ (∀ css, open_read file = inr css →
       CustomCssHandler_get h w = (inr (Write css), w1))
  ∧ In ("Content-Type", "text/css") (headers w1)
  ∧ ∀ msg, fst (CustomCssHandler_get h w) ≠ inl (HTTPError 404 msg).
Proof.
  intros Hpc Hfile.
  assert (Hrun : custom_css_file page_config w1 = (inr file, w1)).
  { pose proof (custom_css_file_pure page_config w1) as Hpure.
    destruct (custom_css_file page_config w1) as [r w2].
    simpl in *. by subst. }
  split; [| split; [| split; [| split]]].
  - intros e Hread Hio.
    unfold CustomCssHandler_get, bind at 1. simpl.
    unfold bind at 1. simpl in Hpc. rewrite Hpc.
    unfold bind at 1. rewrite Hrun, Hread, Hio.
    reflexivity.
  - intros e Hread Hio.
    unfold CustomCssHandler_get, bind at 1. simpl.
    unfold bind at 1. simpl in Hpc. rewrite Hpc.
    unfold bind at 1. rewrite Hrun, Hread, Hio.
    reflexivity.
  - intros css Hread.
    unfold CustomCssHandler_get, bind at 1. simpl.
    unfold bind at 1. simpl in Hpc. rewrite Hpc.
    unfold bind at 1. by rewrite Hrun, Hread.
  - destruct (logs_only_get_page_config h) as (r & entries & Hlog).
    rewrite Hlog in Hpc. injection Hpc as _ <-. simpl.
    apply in_or_app. right. by left.
  - intros msg. apply CustomCssHandler_get_not_404.
Qed.

End Properties.

(** ** The merge of the extension fragments *)

Lemma merge_fragments_app (page_config : dict) (l1 l2 : list dict) :
  merge_fragments (merge_fragments page_config l1) l2
  = merge_fragments page_config (l1 ++ l2).
Proof. unfold merge_fragments. by rewrite fold_left_app. Qed.

Lemma deep_merge_dict (t n : dict) :
  deep_merge (VDict t) (VDict n) = VDict (recursive_update t n).
Proof. reflexivity. Qed.

Lemma deep_merge_replace (old new : value) :
  (∀ t n, old = VDict t → new = VDict n → False) → deep_merge old new = new.
Proof.
  intros Hscalar. destruct old, new; try reflexivity.
  by destruct (Hscalar d d0).
Qed.

(** The extension configuration that [get_page_config] merges is one
    fragment of the sequence. *)
Lemma recursive_update_one_fragment (page_config fragment : dict) :
  recursive_update page_config fragment = merge_fragments page_config [fragment].
Proof. reflexivity. Qed.

(** C8: merging the fragments [A] and [B] into the page configuration and
    then the fragment [C] gives the page configuration that merging [A], [B]
    and [C] in one pass gives. A merge goes key by key: where both sides
    hold a mapping the two are merged in turn, and anywhere else the value of
    the later fragment replaces the earlier one. *)
Theorem merge_fragments_sequence (page_config A B C : dict) :
  merge_fragments (merge_fragments page_config [A; B]) [C]
    = merge_fragments page_config [A; B; C]
  ∧ (∀ (target new : dict) (k : string),
       recursive_update target new !! k
       = match target !! k, new !! k with
         | Some x, Some y => Some (deep_merge x y)
         | Some x, None => Some x
         | None, y => y
         end)
  ∧ (∀ t n : dict, deep_merge (VDict t) (VDict n) = VDict (recursive_update t n))
  ∧ (∀ old new : value,
       (∀ t n, old = VDict t → new = VDict n → False) → deep_merge old new = new).
Proof.
  split; [apply (merge_fragments_app page_config [A; B] [C]) |].
  split; [| split; [apply deep_merge_dict | apply deep_merge_replace]].
  intros target new k. unfold recursive_update. rewrite lookup_union_with.
  by destruct (target !! k), (new !! k).
Qed.

(** * The handlers on concrete requests *)

(** C9, on two requests served with the same settings and the same hook:
    the page of the tree and the stylesheet get the same configuration,
    whatever was logged before. *)
Lemma get_page_config_deterministic_witness :
  let s := Demo.settings_with None (Some Demo.redirecting_hook) in
  fst (@get_page_config Demo.lib
         (Demo.handler_with s "/home/jovyan/work" "/tree/project") Demo.start)
  = fst (@get_page_config Demo.lib
           (Demo.handler_with s "/home/jovyan/work" "/custom/custom.css")
           (mkWorld [(INFO, "302 GET /")] [] [("Content-Type", "text/css")])).
Proof.
  intros s. apply get_page_config_deterministic; reflexivity.
Defined.

(** C2, on the notebook "a.ipynb". *)
Lemma TreeHandler_get_redirects_file_witness :
  fst (@TreeHandler_get Demo.lib (Demo.handler "/tree/a.ipynb") "/a.ipynb" Demo.start)
    = inr (Redirect "/notebooks/a.ipynb")
  ∧ probes (snd (@TreeHandler_get Demo.lib (Demo.handler "/tree/a.ipynb") "/a.ipynb"
                   Demo.start))
    = [DirExists "a.ipynb"; FileExists "a.ipynb"; Get "a.ipynb" false].
Proof.
  exact (@TreeHandler_get_redirects_file Demo.lib (Demo.handler "/tree/a.ipynb")
           "/a.ipynb" Demo.start eq_refl eq_refl).
Defined.

(** C10, on the hidden file ".env" of a server that does not serve hidden
    paths. *)
Lemma TreeHandler_get_file_ignores_hidden_witness :
  is_hidden Demo.cm ".env" = true
  ∧ allow_hidden Demo.cm = false
  ∧ fst (@TreeHandler_get Demo.lib (Demo.handler "/tree/.env") ".env" Demo.start)
    = inr (Redirect "/files/.env").
Proof.
  split; [reflexivity | split; [reflexivity |]].
  destruct (@TreeHandler_get_file_ignores_hidden Demo.lib (Demo.handler "/tree/.env")
              ".env" Demo.start eq_refl eq_refl) as [[Hnb | Hfile] _].
  - vm_compute in Hnb. discriminate Hnb.
  - exact Hfile.
Defined.



(** The failure of [os.path.relpath] on an empty preferred directory is
    logged, and the configuration is returned with the entry "/". *)
Example preferredPath_relpath_failure :
  let h := Demo.handler_with (Demo.settings_with None None) "" "/tree/" in
  let run := @get_page_config Demo.lib h Demo.start in
  page_config_entry run "preferredPath" = Some (VStr "/")
  ∧ log (snd run) = [(ERROR, "Error determining preferred path: no path specified")].
Proof. vm_compute. split; reflexivity. Qed.

(** What the library writes to the logger follows the entry of the
    failure, and is all that a run without a failure logs. *)
Example library_entries_follow :
  let h := Demo.handler_with (Demo.settings_with None None) "" "/tree/" in
  log (snd (@get_page_config Demo.lib_reporting h Demo.start))
  = [(ERROR, "Error determining preferred path: no path specified");
     (WARNING, "No extensions in /usr/share/jupyter/labextensions")]
  ∧ log (snd (@get_page_config Demo.lib_reporting (Demo.handler "/tree/") Demo.start))
    = [(WARNING, "No extensions in /usr/share/jupyter/labextensions")].
Proof. vm_compute. split; reflexivity. Qed.

(** A MathJax URL whose network location opens a bracket and does not
    close it is refused by [url_is_absolute]: [get_page_config] raises,
    after the preferred path was handled and before the library is
    called. *)
Example get_page_config_invalid_mathjax_url :
  let h := Demo.handler_with (Demo.settings_with (Some "//[") None) "" "/tree/" in
  @get_page_config Demo.lib_reporting h Demo.start
  = (inl (Raise (mkError ValueError "Invalid IPv6 URL")),
     mkWorld [(ERROR, "Error determining preferred path: no path specified")] [] []).
Proof. vm_compute. reflexivity. Qed.

(** C4, on a MathJax URL relative to the base URL. *)
Lemma fullMathjaxUrl_unless_overridden_witness :
  let h := Demo.handler_with
             (Demo.settings_with (Some "static/mathjax/MathJax.js") None)
             "/home/jovyan/work" "/tree/" in
  ∃ pc,
    fst (@get_page_config Demo.lib h Demo.start) = inr pc
    ∧ pc !! "fullMathjaxUrl" = Some (VStr "/static/mathjax/MathJax.js").
Proof.
  intros h.
  pose proof (@get_page_config_returns Demo.lib h Demo.start (VStr "secret")
                "/home/jovyan" false eq_refl eq_refl eq_refl eq_refl) as Hrun.
  eexists. split; [exact (f_equal fst Hrun) |].
  apply (@fullMathjaxUrl_unless_overridden Demo.lib h Demo.start _
           (f_equal fst Hrun) eq_refl eq_refl (λ pc, eq_refl));
    reflexivity.
Defined.

(** C4, as stated, fails: a MathJax URL that is not absolute but starts with
    the base URL is kept as it is, not joined; and the hook can write the
    key of an absolute URL. *)
Lemma fullMathjaxUrl_not_joined :
  let h := Demo.handler_with (Demo.settings_with (Some "//cdn.example.org") None)
             "/home/jovyan/work" "/tree/" in
  let h' := Demo.handler_with (Demo.settings_with None (Some Demo.no_mathjax_hook))
              "/home/jovyan/work" "/tree/" in
  (@url_is_absolute Demo.lib (@mathjax_url h) = inr false
   ∧ @ujoin Demo.lib [base_url h; mathjax_url h] = "/cdn.example.org"
   ∧ page_config_entry (@get_page_config Demo.lib h Demo.start) "fullMathjaxUrl"
     = Some (VStr "//cdn.example.org"))
  ∧ (@url_is_absolute Demo.lib (@mathjax_url h') = inr true
     ∧ page_config_entry (@get_page_config Demo.lib h' Demo.start) "fullMathjaxUrl"
       = Some (VStr "")).
Proof. vm_compute. repeat split. Qed.

(** C5, on the trait "tree_url", a full URL, of the demonstration host. *)
Lemma full_url_unless_overridden_witness :
  ∃ pc,
    fst (@get_page_config Demo.lib (Demo.handler "/tree/") Demo.start) = inr pc
    ∧ pc !! "fullTreeUrl" = Some (VStr "https://hub.example.org/tree/").
Proof.
  pose proof (@get_page_config_returns Demo.lib (Demo.handler "/tree/") Demo.start
                (VStr "secret") "/home/jovyan" true eq_refl eq_refl eq_refl eq_refl) as Hrun.
  eexists. split; [exact (f_equal fst Hrun) |].
  destruct (@full_url_unless_overridden Demo.lib (Demo.handler "/tree/") Demo.start _
              "tree_url" (f_equal fst Hrun)) as (raw & Hraw & Hentry).
  - apply list_elem_of_In. simpl. tauto.
  - reflexivity.
  - reflexivity.
  - reflexivity.
  - intros pc. reflexivity.
  - injection Hraw as <-. exact Hentry.
Defined.

(** C5, as stated, fails: the trait "static_url" holds a path that is not
    a full URL, and the entry "fullStaticUrl" is not the base URL joined
    with it when the hook, or an extension, writes the key. *)
Lemma fullStaticUrl_overridden :
  let h := Demo.handler_with (Demo.settings_with None (Some Demo.cdn_hook))
             "/home/jovyan/work" "/tree/" in
  let h' := Demo.handler "/tree/" in
  let fragment : dict := {[ "fullStaticUrl" := VStr "https://cdn.example.org/static/" ]} in
  In "static_url" (@trait_names Demo.lib)
  ∧ endswith "static_url" "_url" = true
  ∧ @_camelCase Demo.lib "full_static_url" = "fullStaticUrl"
  ∧ getattr (extensionapp h) "static_url" = VStr "/static/notebook/"
  ∧ @is_url Demo.lib "/static/notebook/" = false
  ∧ @ujoin Demo.lib ["/"; "/static/notebook/"] = "/static/notebook/"
  ∧ page_config_entry (@get_page_config Demo.lib h Demo.start) "fullStaticUrl"
    = Some (VStr "https://cdn.example.org/static/")
  ∧ page_config_entry (@get_page_config (Demo.lib_with fragment) h' Demo.start)
      "fullStaticUrl"
    = Some (VStr "https://cdn.example.org/static/").
Proof. vm_compute. repeat split. tauto. Qed.

(** Without a hook and without extensions the entry is the joined URL. *)
Example fullStaticUrl_joined :
  page_config_entry (@get_page_config Demo.lib (Demo.handler "/tree/") Demo.start)
    "fullStaticUrl"
  = Some (VStr "/static/notebook/").
Proof. vm_compute. reflexivity. Qed.


(** C7, on a host with a custom stylesheet. *)
Lemma CustomCssHandler_get_read_witness :
  @CustomCssHandler_get Demo.lib (Demo.handler "/custom/custom.css") Demo.start
  = (inr (Write "body { margin: 0 }"),
     mkWorld [] [] [("Content-Type", "text/css")]).
Proof.
  pose proof (@get_page_config_returns Demo.lib (Demo.handler "/custom/custom.css")
                (snd (set_header "Content-Type" "text/css" Demo.start))
                (VStr "secret") "/home/jovyan" true eq_refl eq_refl eq_refl eq_refl) as Hrun.
  destruct (@CustomCssHandler_get_read Demo.lib (Demo.handler "/custom/custom.css")
              Demo.start _ _ "/home/jovyan/.jupyter/custom/custom.css" Hrun)
    as (_ & _ & Hread & _).
  - vm_compute. reflexivity.
  - exact (Hread "body { margin: 0 }" eq_refl).
Defined.

(** C7, as stated, fails: the stylesheet is present and reading it fails,
    since its bytes do not decode; the [UnicodeDecodeError] is no [IOError],
    so nothing is logged and the outcome is this exception, not the error
    500. *)
Lemma CustomCssHandler_get_undecodable :
  let file := "/home/jovyan/.jupyter/custom/custom.css" in
  let e := mkError ValueError "'utf-8' codec can't decode byte 0xff" in
  @is_file Demo.lib_undecodable file = true
  ∧ @open_read Demo.lib_undecodable file = inl e
  ∧ is_IOError e = false
  ∧ fst (@CustomCssHandler_get Demo.lib_undecodable
           (Demo.handler "/custom/custom.css") Demo.start)
    = inl (Raise e)
  ∧ log (snd (@CustomCssHandler_get Demo.lib_undecodable
                (Demo.handler "/custom/custom.css") Demo.start))
    = [].
Proof. vm_compute. repeat split. Qed.

(** Without a stylesheet in the configuration directory or beside the static
    directory, the handler logs the failure and raises the error 500. *)
Example CustomCssHandler_get_missing :
  @CustomCssHandler_get Demo.lib_without_stylesheet
     (Demo.handler "/custom/custom.css") Demo.start
  = (inl (HTTPError 500 (Some "Custom CSS file not found.")),
     mkWorld [(ERROR, "Error reading custom CSS file: No such file or directory")]
             [] [("Content-Type", "text/css")]).
Proof. vm_compute. reflexivity. Qed.

(** C1, as stated, fails: the directory "project/notes" exists and is not
    hidden, and the request is answered neither with its listing nor with
    a redirection. The settings hold no token, or a MathJax URL that
    [url_is_absolute] rejects: the exception of [get_page_config] is the
    outcome of the handler. *)
Lemma TreeHandler_get_listing_raises :
  let h := Demo.handler_with Demo.settings_without_token "/home/jovyan/work"
             "/tree/project/notes" in
  let h' := Demo.handler_with (Demo.settings_with (Some "//[") None)
              "/home/jovyan/work" "/tree/project/notes" in
  dir_exists Demo.cm "project/notes" = true
  ∧ is_hidden Demo.cm "project/notes" = false
  ∧ fst (@TreeHandler_get Demo.lib h "/project/notes/" Demo.start)
    = inl (Raise (mkError KeyError "'token'"))
  ∧ fst (@TreeHandler_get Demo.lib h' "/project/notes/" Demo.start)
    = inl (Raise (mkError ValueError "Invalid IPv6 URL")).
Proof. vm_compute. repeat split. Qed.

(** The directory "project/notes" exists and is not hidden: its listing is
    served. *)
Example TreeHandler_get_listing :
  fst (@TreeHandler_get Demo.lib (Demo.handler "/tree/project/notes")
         "/project/notes/" Demo.start)
  = inr (Write "tree.html project/notes").
Proof. vm_compute. reflexivity. Qed.

(** The directory ".cache" is hidden and hidden paths are not served: the
    refusal is logged and the error 404 raised. *)
Example TreeHandler_get_hidden_directory :
  @TreeHandler_get Demo.lib (Demo.handler "/tree/.cache") ".cache" Demo.start
  = (inl (HTTPError 404 None),
     mkWorld [(INFO, "Refusing to serve hidden directory, via 404 Error")]
             [DirExists ".cache"; IsHidden ".cache"; AllowHidden] []).
Proof. vm_compute. reflexivity. Qed.

(** The file "readme.txt" is no notebook: its request is redirected to the
    file viewer. *)
Example TreeHandler_get_plain_file :
  fst (@TreeHandler_get Demo.lib (Demo.handler "/tree/readme.txt") "readme.txt"
         Demo.start)
  = inr (Redirect "/files/readme.txt").
Proof. vm_compute. reflexivity. Qed.

(** Nothing exists at "nowhere": the error 404 is raised, without a log
    entry. *)
Example TreeHandler_get_nowhere :
  @TreeHandler_get Demo.lib (Demo.handler "/tree/nowhere") "nowhere" Demo.start
  = (inl (HTTPError 404 None),
     mkWorld [] [DirExists "nowhere"; FileExists "nowhere"] []).
Proof. vm_compute. reflexivity. Qed.

(** The grouping of the merges matters: merging [B] into [A] first, and the
    result into the target, is not merging [A] and then [B] into the target,
    since a value that is no mapping, once merged, hides the mapping below
    it. *)
Example recursive_update_grouping :
  let target : dict := {[ "k" := VDict {[ "x" := VInt 1 ]} ]} in
  let A : dict := {[ "k" := VInt 5 ]} in
  let B : dict := {[ "k" := VDict {[ "y" := VInt 2 ]} ]} in
  recursive_update (recursive_update target A) B !! "k"
    = Some (VDict {[ "y" := VInt 2 ]})
  ∧ recursive_update target (recursive_update A B) !! "k"
    = Some (VDict (<["x" := VInt 1]> {[ "y" := VInt 2 ]})).
Proof. vm_compute. split; reflexivity. Qed.

(** * Further properties of the handlers *)

(** ** Stripping a character *)

Lemma append_assoc (s t u : string) : (s +:+ t) +:+ u = s +:+ t +:+ u.
Proof.
  induction s as [| a s IH]; [reflexivity |].
  rewrite (append_cons a s t), (append_cons a (s +:+ t) u), IH.
  by rewrite (append_cons a s (t +:+ u)).
Qed.

Lemma append_nil_r (s : string) : s +:+ "" = s.
Proof.
  induction s as [| a s IH]; [reflexivity |].
  by rewrite (append_cons a s ""), IH.
Qed.

Lemma rev_app_append (s t : string) : String.rev_app s t = String.rev s +:+ t.
Proof.
  unfold String.rev. revert t.
  induction s as [| a s IH]; intros t; simpl; [reflexivity |].
  rewrite (IH (String a t)), (IH (String a "")), append_assoc.
  reflexivity.
Qed.

Lemma rev_cons (a : ascii) (s : string) :
  String.rev (String a s) = String.rev s +:+ String a "".
Proof. unfold String.rev at 1. simpl. apply rev_app_append. Qed.

Lemma rev_append (s t : string) :
  String.rev (s +:+ t) = String.rev t +:+ String.rev s.
Proof.
  induction s as [| a s IH].
  - by rewrite append_nil, append_nil_r.
  - by rewrite (append_cons a s t), !rev_cons, IH, append_assoc.
Qed.

Lemma rev_involutive (s : string) : String.rev (String.rev s) = s.
Proof.
  induction s as [| a s IH]; [reflexivity |].
  rewrite rev_cons, rev_append, IH. reflexivity.
Qed.

Lemma startswith_char (c : ascii) (s : string) :
  startswith s (String c "")
  = match s with String a _ => Ascii.eqb a c | EmptyString => false end.
Proof.
  unfold startswith. destruct s as [| a s]; simpl; [reflexivity |].
  destruct (ascii_dec c a) as [-> | Hne].
  - rewrite Ascii.eqb_refl. by destruct s.
  - symmetry. apply Ascii.eqb_neq. congruence.
Qed.

Lemma endswith_char (c : ascii) (s : string) :
  endswith s (String c "") = startswith (String.rev s) (String c "").
Proof. reflexivity. Qed.

Lemma lstrip_startswith (c : ascii) (s : string) :
  startswith (lstrip c s) (String c "") = false.
Proof.
  rewrite startswith_char.
  induction s as [| a s IH]; simpl; [reflexivity |].
  destruct (Ascii.eqb a c) eqn:Hac; [exact IH | exact Hac].
Qed.


Lemma lstrip_app_other (c a : ascii) (u v : string) :
  Ascii.eqb a c = false →
  lstrip c (u +:+ String a v) = lstrip c u +:+ String a v.
Proof.
  intros Hac. induction u as [| b u IH].
  - rewrite append_nil. simpl. by rewrite Hac.
  - rewrite (append_cons b u (String a v)). simpl.
    destruct (Ascii.eqb b c); [exact IH |].
    by rewrite (append_cons b u (String a v)).
Qed.



Lemma rstrip_endswith (c : ascii) (s : string) :
  endswith (rstrip c s) (String c "") = false.
Proof.
  rewrite endswith_char. unfold rstrip.
  rewrite rev_involutive. apply lstrip_startswith.
Qed.

Lemma rstrip_startswith (c : ascii) (s : string) :
  startswith s (String c "") = false →
  startswith (rstrip c s) (String c "") = false.
Proof.
  rewrite !startswith_char. unfold rstrip.
  destruct s as [| a s]; [done |]. intros Hac.
  rewrite rev_cons, (lstrip_app_other c a _ "" Hac), rev_append.
  exact Hac.
Qed.


Lemma strip_startswith (c : ascii) (s : string) :
  startswith (strip c s) (String c "") = false.
Proof. apply rstrip_startswith, lstrip_startswith. Qed.

Lemma strip_endswith (c : ascii) (s : string) :
  endswith (strip c s) (String c "") = false.
Proof. apply rstrip_endswith. Qed.





Section More.
Context `{Lib}.

(** ** What [get_page_config] returns, raises and logs *)

Lemma get_page_config_run (h : Handler) (w : world) :
  get_page_config h w = (page_config_result h, add_log (page_config_log h) w).
Proof.
  unfold page_config_result, page_config_log.
  destruct (st_token (settings h)) as [token |] eqn:Htoken.
  - destruct (expanded_root h) as [e | root] eqn:Hroot.
    + unfold get_page_config, seed_page_config, server_root_dir.
      unfold expanded_root in Hroot. rewrite Htoken, Hroot.
      unfold bind, ret, lift, raise. simpl. by rewrite add_log_nil.
    + destruct (full_mathjax_url h) as [e | url] eqn:Hurl.
      * unfold get_page_config, seed_page_config, server_root_dir.
        unfold expanded_root in Hroot. rewrite Htoken, Hroot, Hurl.
        unfold bind at 1 2 3 4. simpl.
        unfold bind at 1. rewrite set_preferred_path_run.
        unfold bind, lift, raise. simpl. by rewrite app_nil_r.
      * rewrite (get_page_config_steps h w token root url Htoken Hroot Hurl).
        destruct (url_traits_are_strings (extensionapp h)) eqn:Hstr.
        -- unfold bind at 1. rewrite (set_full_urls_run _ _ _ _ _ Hstr).
           unfold bind, log_all, ret. simpl.
           unfold assembled, merged.
           rewrite (full_mathjax_url_resolved h _ Hurl).
           unfold add_log. simpl. by rewrite app_assoc.
        -- unfold bind. rewrite (set_full_urls_raises _ _ _ _ _ Hstr).
           by rewrite app_nil_r.
  - unfold get_page_config, seed_page_config. rewrite Htoken.
    unfold bind, raise. simpl. by rewrite add_log_nil.
Qed.



(** X2: the failures of [get_page_config] in their order. Without a token
    it raises the [KeyError] of the key and logs nothing, whatever else is
    wrong; with a token and a server root that does not expand it raises the
    error of the expansion and logs nothing; with both, a URL trait that
    holds no string makes it raise after the preferred path was handled, so
    that the error of a failed relative path is already logged. *)
Theorem get_page_config_raises (h : Handler) (w : world) :
  (st_token (settings h) = None →
     get_page_config h w = (inl (Raise (mkError KeyError "'token'")), w))
  ∧ (∀ token e,
       st_token (settings h) = Some token →
       expanded_root h = inl e →
       get_page_config h w = (inl (Raise e), w))
  ∧ (∀ token root,
       st_token (settings h) = Some token →
       expanded_root h = inr root →
       url_traits_are_strings (extensionapp h) = false →
       ∃ e, get_page_config h w
            = (inl (Raise e), add_log (preferred_path_log h (normpath root)) w)).
Proof.
  rewrite get_page_config_run. unfold page_config_result, page_config_log.
  split; [| split].
  - intros ->. by rewrite add_log_nil.
  - intros token e -> ->. by rewrite add_log_nil.
  - intros token root -> -> ->.
    destruct (full_mathjax_url h) as [e | url]; rewrite app_nil_r.
    + by exists e.
    + by exists (mkError AttributeError "not a string").
Qed.

(** X3: [get_page_config] makes no call to the contents manager and sets
    no header. To the log it adds at most one entry of its own, at the
    level ERROR, and after it nothing but what the library writes to the
    logger that it is given. *)
Theorem get_page_config_frame (h : Handler) (w : world) :
  probes (snd (get_page_config h w)) = probes w
  ∧ headers (snd (get_page_config h w)) = headers w
  ∧ ∃ own written,
      log (snd (get_page_config h w)) = (log w ++ own ++ written)%list
      ∧ (own = [] ∨ ∃ msg, own = [(ERROR, msg)])
      ∧ (written = [] ∨ written = library_log h).
Proof.
  rewrite get_page_config_run. simpl.
  split; [done | split; [done |]].
  unfold page_config_log.
  destruct (st_token (settings h));
    [| by exists [], []; repeat split; auto].
  destruct (expanded_root h) as [e | root];
    [by exists [], []; repeat split; auto |].
  eexists (preferred_path_log h (normpath root)), _.
  split; [reflexivity |]. split.
  - unfold preferred_path_log.
    destruct (preferred_path h (normpath root)) as [e | p]; [right | left]; eauto.
  - destruct (full_mathjax_url h); [by left |].
    destruct (url_traits_are_strings (extensionapp h)); auto.
Qed.


(** ** The entries of the page configuration *)

Lemma key_in_cons (k k' : string) (keys : list string) :
  key_in (k' :: keys) k = false → k' ≠ k ∧ key_in keys k = false.
Proof.
  unfold key_in. simpl. intros [Hk Hkeys]%orb_false_elim.
  split; [| done]. apply String.eqb_neq in Hk. congruence.
Qed.

(** X5: an entry of [page_config_data] under a key that no layer writes
    (none of the keys of lines 60-92, no key of a trait, no key of the
    extensions, a key that the hook leaves alone) is in the page
    configuration that [get_page_config] returns, and a key absent from
    [page_config_data] and written by no layer is absent from it. *)
Theorem page_config_data_passes (h : Handler) (w : world) (pc : dict) (k : string) :
  fst (get_page_config h w) = inr pc →
  key_in (seed_keys ++ derived_keys) k = false →
  trait_key_free k = true →
  extensions_keep h k →
  hook_keeps h k →
  pc !! k = default ∅ (st_page_config_data (settings h)) !! k.
Proof.
  intros Hrun Hk Hfree Hext Hhook.
  destruct (get_page_config h w) as [r w'] eqn:Hgpc. simpl in Hrun. subst r.
  apply get_page_config_inr in Hgpc as (token & root & _ & _ & _ & _ & ->).
  rewrite assembled_lookup by done.
  cbv [seed_keys derived_keys app] in Hk.
  repeat (apply key_in_cons in Hk as [? Hk]).
  unfold set_mathjax, seed_dict.
  by rewrite !lookup_insert_ne by done.
Qed.

(** X6: the entries that [get_page_config] computes itself ("appVersion",
    "baseUrl", "terminalsAvailable", "token", "fullStaticUrl",
    "frontendUrl", "exposeAppInBrowser", "mathjaxConfig",
    "jupyterConfigDir") win over [page_config_data]: whatever that
    dictionary holds under their keys, the returned page configuration holds
    the computed value, when no later layer writes the key. *)
Theorem fixed_entries_win (h : Handler) (w : world) (pc : dict) (token : value)
    (k : string) (v : value) :
  fst (get_page_config h w) = inr pc →
  st_token (settings h) = Some token →
  In (k, v) (fixed_entries h token) →
  trait_key_free k = true →
  extensions_keep h k →
  hook_keeps h k →
  pc !! k = Some v.
Proof.
  intros Hrun Htoken Hin Hfree Hext Hhook.
  destruct (get_page_config h w) as [r w'] eqn:Hgpc. simpl in Hrun. subst r.
  apply get_page_config_inr in Hgpc as (token' & root & Htoken' & _ & _ & _ & ->).
  assert (token' = token) as -> by congruence.
  rewrite assembled_lookup by done.
  unfold set_mathjax, seed_dict. simpl in Hin.
  repeat (destruct Hin as [[= <- <-] | Hin];
          [repeat first [ by rewrite lookup_insert_eq
                        | rewrite lookup_insert_ne by done ] |]).
  destruct Hin.
Qed.

Lemma own_key_unique_split (name : string) :
  own_key_unique name = true →
  forallb (λ name',
    negb (String.eqb (_camelCase name') (_camelCase name))
    || String.eqb name' name) trait_names = true
  ∧ forallb (λ name',
      negb (endswith name' "_url")
      || negb (String.eqb (_camelCase ("full_" +:+ name')) (_camelCase name)))
      trait_names = true.
Proof.
  unfold own_key_unique. induction trait_names as [| n names IH]; simpl; [done |].
  intros [[-> ->]%andb_prop Hnames]%andb_prop. simpl. by apply IH.
Qed.

Lemma own_key_unique_free (name : string) (names : list string) :
  name ∉ names →
  forallb (λ name',
    negb (String.eqb (_camelCase name') (_camelCase name))
    || String.eqb name' name) names = true →
  forallb (λ name', negb (String.eqb (_camelCase name') (_camelCase name)))
          names = true.
Proof.
  induction names as [| n names IH]; simpl; [done |].
  intros [Hne Hnotin]%not_elem_of_cons [Hn Hnames]%andb_prop.
  rewrite IH by done. rewrite andb_true_r.
  apply orb_prop in Hn as [Hn | Heq]; [done |].
  apply String.eqb_eq in Heq. congruence.
Qed.

Lemma set_traits_lookup_unique (app : App) (name : string) (names : list string) :
  ∀ pc : dict,
    name ∈ names →
    forallb (λ name',
      negb (String.eqb (_camelCase name') (_camelCase name))
      || String.eqb name' name) names = true →
    set_traits app names pc !! _camelCase name = Some (getattr app name).
Proof.
  induction names as [| n names IH]; intros pc Hin Huniq.
  - by apply elem_of_nil in Hin.
  - simpl in Huniq. apply andb_prop in Huniq as [Hn Hnames].
    change (set_traits app (n :: names) pc)
      with (set_traits app names (<[_camelCase n := getattr app n]> pc)).
    destruct (decide (name ∈ names)) as [Hlater | Hlast]; [by apply IH |].
    apply elem_of_cons in Hin as [-> | Hin]; [| done].
    rewrite set_traits_lookup_free by (by apply own_key_unique_free).
    apply lookup_insert_eq.
Qed.

(** X7: the value of a trait is in the returned page configuration under the
    camelCase form of its name, when no other trait has that key, no URL
    trait has it as its full-URL key, the extensions contribute nothing
    under it and the hook leaves it alone. *)
Theorem trait_entry (h : Handler) (w : world) (pc : dict) (name : string) :
  fst (get_page_config h w) = inr pc →
  name ∈ trait_names →
  own_key_unique name = true →
  extensions_keep h (_camelCase name) →
  hook_keeps h (_camelCase name) →
  pc !! _camelCase name = Some (getattr (extensionapp h) name).
Proof.
  intros Hrun Hin Huniq Hext Hhook.
  destruct (get_page_config h w) as [r w'] eqn:Hgpc. simpl in Hrun. subst r.
  apply get_page_config_inr in Hgpc as (token & root & _ & _ & _ & _ & ->).
  apply own_key_unique_split in Huniq as [Hown Hfull].
  unfold assembled, merged. rewrite later_layers_lookup by done.
  rewrite full_urls_lookup_free by done.
  by apply set_traits_lookup_unique.
Qed.

(** ** More on the tree handler *)


Lemma tree_listing_run (h : Handler) (path : string) (w : world) :
  tree_listing h path w
  = (match page_config_result h with
     | inr pc =>
         inr (Write (render_template "tree.html" (<["treePath" := VStr path]> pc)))
     | inl e => inl e
     end,
     add_log (page_config_log h) w).
Proof.
  unfold tree_listing, bind. rewrite get_page_config_run.
  by destruct (page_config_result h).
Qed.

Ltac solve_probes :=
  repeat match goal with
         | |- Forall _ (_ :: _) => constructor; [first [by right | by left] |]
         | |- Forall _ [] => constructor
         end.

(** X9: every call that the tree handler makes to the contents manager is
    about the stripped path, which neither starts nor ends with a slash;
    the first call asks whether it is a directory, and no call fetches the
    content of an entry. *)
Theorem TreeHandler_get_probes (h : Handler) (path : string) (w : world) :
  let p := strip slash path in
  startswith p "/" = false
  ∧ endswith p "/" = false
  ∧ ∃ calls,
      probes (snd (TreeHandler_get h path w))
        = (probes w ++ DirExists p :: calls)%list
      ∧ Forall (λ c, probe_path c = None ∨ probe_path c = Some p) calls
      ∧ forallb (λ c, negb (content_probe c)) calls = true.
Proof.
  cbv zeta.
  split; [apply strip_startswith | split; [apply strip_endswith |]].
  destruct (dir_exists (contents_manager h) (strip slash path)) eqn:Hdir.
  - rewrite (TreeHandler_get_directory h path w Hdir).
    destruct (is_hidden _ _); [destruct (allow_hidden _) |];
      rewrite ?tree_listing_run; simpl;
      eexists; (split; [reflexivity |]); split; try reflexivity;
      solve_probes.
  - destruct (file_exists (contents_manager h) (strip slash path)) eqn:Hfile.
    + rewrite (TreeHandler_get_file h path w Hdir Hfile). simpl.
      eexists. split; [reflexivity |]. split; [| reflexivity].
      solve_probes.
    + rewrite (TreeHandler_get_missing h path w Hdir Hfile). simpl.
      eexists. split; [reflexivity |]. split; [| reflexivity].
      solve_probes.
Qed.

(** X10: a directory wins over a file of the same path: when the stripped
    path is an existing directory, the handler never asks whether it is a
    file and never fetches its model, and it never redirects. *)
Theorem TreeHandler_get_directory_first (h : Handler) (path : string) (w : world) :
  let p := strip slash path in
  dir_exists (contents_manager h) p = true →
  (∃ calls,
     probes (snd (TreeHandler_get h path w)) = (probes w ++ calls)%list
     ∧ forallb (λ c, negb (file_probe c)) calls = true)
  ∧ ∀ url, fst (TreeHandler_get h path w) ≠ inr (Redirect url).
Proof.
  cbv zeta. intros Hdir.
  rewrite (TreeHandler_get_directory h path w Hdir).
  destruct (is_hidden _ _); [destruct (allow_hidden _) |];
    rewrite ?tree_listing_run; simpl;
    (split; [by eexists |]); intros url;
    try discriminate; by destruct (page_config_result h).
Qed.

(** X11: the tree handler raises an exception other than an [HTTPError]
    exactly when the stripped path is a directory that is served and
    [get_page_config] raises that exception; a request for a file or for a
    missing path never fails that way, whatever the settings hold. *)
Theorem TreeHandler_get_raises (h : Handler) (path : string) (w : world) (e : error) :
  let p := strip slash path in
  let cm := contents_manager h in
  fst (TreeHandler_get h path w) = inl (Raise e)
  ↔ dir_exists cm p = true
    ∧ refused cm p = false
    ∧ fst (get_page_config h w) = inl (Raise e).
Proof.
  cbv zeta. rewrite get_page_config_run. simpl. unfold refused.
  destruct (dir_exists (contents_manager h) (strip slash path)) eqn:Hdir.
  - rewrite (TreeHandler_get_directory h path w Hdir).
    destruct (is_hidden _ _); [destruct (allow_hidden _) |];
      rewrite ?tree_listing_run; simpl;
      (split; [intros Hrun | intros (_ & Hserved & Hrun)]);
      try discriminate;
      destruct (page_config_result h); try discriminate;
      repeat split; congruence.
  - destruct (file_exists (contents_manager h) (strip slash path)) eqn:Hfile.
    + rewrite (TreeHandler_get_file h path w Hdir Hfile). simpl.
      split; [discriminate | by intros [? _]].
    + rewrite (TreeHandler_get_missing h path w Hdir Hfile). simpl.
      split; [discriminate | by intros [? _]].
Qed.

(** X12: the page of a served directory is the template "tree.html"
    rendered on the page configuration of [get_page_config] with the
    stripped path under "treePath": the path is written last, over whatever
    the extensions or the hook put under that key, and no other key
    changes. *)
Theorem TreeHandler_get_listing_config (h : Handler) (path : string) (w : world)
    (pc : dict) :
  let p := strip slash path in
  let cm := contents_manager h in
  dir_exists cm p = true →
  refused cm p = false →
  fst (get_page_config h w) = inr pc →
  ∃ pc',
    fst (TreeHandler_get h path w) = inr (Write (render_template "tree.html" pc'))
    ∧ pc' !! "treePath" = Some (VStr p)
    ∧ ∀ k, k ≠ "treePath" → pc' !! k = pc !! k.
Proof.
  cbv zeta. unfold refused. rewrite get_page_config_run. simpl.
  intros Hdir Hserved Hpc.
  rewrite (TreeHandler_get_directory h path w Hdir).
  exists (<["treePath" := VStr (strip slash path)]> pc).
  split; [| split].
  - destruct (is_hidden _ _); [destruct (allow_hidden _); [| discriminate] |];
      rewrite tree_listing_run, Hpc; reflexivity.
  - apply lookup_insert_eq.
  - intros k Hk. by apply lookup_insert_ne.
Qed.

(** X13: what the tree handler logs, and the headers that it sets. The
    refusal of a hidden directory is logged at the level INFO and the
    redirection of a file at the level DEBUG, with the path of the request
    and the target; for a served directory the log is the one that
    [get_page_config] leaves, with what the library wrote to the logger;
    nothing is logged for a path that is not found. A redirection sets the
    header "Location" to its target, and no other request sets a
    header. *)
Theorem TreeHandler_get_log (h : Handler) (path : string) (w : world) :
  let p := strip slash path in
  let cm := contents_manager h in
  let run := TreeHandler_get h path w in
  (if negb (dir_exists cm p) && file_exists cm p
   then In ("Location", redirect_url h (get cm p false) p) (headers (snd run))
   else headers (snd run) = headers w)
  ∧ log (snd run)
    = if dir_exists cm p then
        if refused cm p
        then (log w ++ [(INFO, "Refusing to serve hidden directory, via 404 Error")])%list
        else log (snd (get_page_config h w))
      else if file_exists cm p then
        (log w ++ [(DEBUG, "Redirecting " +:+ request_path h +:+ " to "
                           +:+ redirect_url h (get cm p false) p)])%list
      else log w.
Proof.
  cbv zeta. unfold refused. rewrite get_page_config_run.
  destruct (dir_exists (contents_manager h) (strip slash path)) eqn:Hdir.
  - rewrite (TreeHandler_get_directory h path w Hdir).
    destruct (is_hidden _ _); [destruct (allow_hidden _) |];
      rewrite ?tree_listing_run; simpl; done.
  - destruct (file_exists (contents_manager h) (strip slash path)) eqn:Hfile.
    + rewrite (TreeHandler_get_file h path w Hdir Hfile). simpl.
      split; [| done]. apply in_or_app. right. by left.
    + by rewrite (TreeHandler_get_missing h path w Hdir Hfile).
Qed.

(** ** The pages of the console, the terminal, the editor and the notebook *)

Lemma page_handler_run (tpl : string) (h : Handler) (w : world) :
  bind (get_page_config h) (λ pc, ret (Write (render_template tpl pc))) w
  = (match page_config_result h with
     | inr pc => inr (Write (render_template tpl pc))
     | inl e => inl e
     end,
     snd (get_page_config h w)).
Proof.
  unfold bind. rewrite get_page_config_run. by destruct (page_config_result h).
Qed.

(** X14: each of the four page handlers renders its template on the page
    configuration of [get_page_config] and raises what that function
    raises. None reads the path of its route or asks the contents manager
    anything, so that none answers with an [HTTPError]: the page is served
    for a path that does not exist as it is for one that does. *)
Theorem page_handlers_serve (tpl : string)
    (get : Handler → option string → M response)
    (h : Handler) (path : option string) (w : world) :
  In (tpl, get) page_handlers →
  fst (get h path w)
    = match fst (get_page_config h w) with
      | inr pc => inr (Write (render_template tpl pc))
      | inl e => inl e
      end
  ∧ snd (get h path w) = snd (get_page_config h w)
  ∧ probes (snd (get h path w)) = probes w
  ∧ headers (snd (get h path w)) = headers w
  ∧ (∀ path', get h path' w = get h path w)
  ∧ ∀ status msg, fst (get h path w) ≠ inl (HTTPError status msg).
Proof.
  intros Hin.
  assert (Hget : ∀ path',
    get h path' w
    = bind (get_page_config h) (λ pc, ret (Write (render_template tpl pc))) w).
  { intros path'. simpl in Hin.
    destruct Hin as [[= <- <-] | [[= <- <-] | [[= <- <-] | [[= <- <-] | []]]]];
      reflexivity. }
  rewrite !Hget, page_handler_run. simpl.
  rewrite get_page_config_run. simpl.
  repeat split.
  - intros path'. by rewrite Hget, page_handler_run, get_page_config_run.
  - intros status msg Hrun.
    apply (no_http_error_get_page_config h w status msg).
    rewrite get_page_config_run. simpl.
    destruct (page_config_result h); [congruence | discriminate].
Qed.

(** ** More on the stylesheet handler *)

Lemma endswith_app (s t : string) : endswith (s +:+ t) t = true.
Proof.
  unfold endswith. rewrite rev_append. apply prefix_app. by eexists.
Qed.

(** X15: the stylesheet that the handler opens always ends in
    "custom/custom.css", whatever the page configuration holds. *)
Theorem custom_css_file_suffix (page_config : dict) (w : world) (file : string) :
  fst (custom_css_file page_config w) = inr file →
  endswith file "custom/custom.css" = true.
Proof.
  unfold custom_css_file, getitem, bind, ret, raise.
  destruct (page_config !! "jupyterConfigDir") as [config_dir |]; simpl;
    [| discriminate].
  assert (Hprimary : endswith (format_value config_dir +:+ "/custom/custom.css")
                              "custom/custom.css" = true).
  { change "/custom/custom.css" with ("/" +:+ "custom/custom.css").
    rewrite <- append_assoc. apply endswith_app. }
  destruct (is_file _); simpl; [by intros [= <-] |].
  destruct (page_config !! "staticDir") as [[] |]; simpl; try discriminate.
  destruct (re_match_static _) as [root |]; simpl; intros [= <-];
    [apply endswith_app | done].
Qed.

Lemma CustomCssHandler_get_run (h : Handler) (w : world) :
  CustomCssHandler_get h w
  = match page_config_result h with
    | inl e => (inl e, add_log (page_config_log h)
                         (snd (set_header "Content-Type" "text/css" w)))
    | inr pc =>
        let w1 := add_log (page_config_log h)
                    (snd (set_header "Content-Type" "text/css" w)) in
        match fst (custom_css_file pc w1) with
        | inl e => (inl e, w1)
        | inr file =>
            match open_read file with
            | inr css => (inr (Write css), w1)
            | inl e =>
                if is_IOError e then
                  (inl (HTTPError 500 (Some "Custom CSS file not found.")),
                   add_log [(ERROR, "Error reading custom CSS file: " +:+ message e)]
                           w1)
                else (inl (Raise e), w1)
            end
        end
    end.
Proof.
  unfold CustomCssHandler_get, bind at 1. simpl.
  unfold bind at 1. rewrite get_page_config_run.
  destruct (page_config_result h) as [e | pc]; [reflexivity |].
  cbv zeta. unfold bind at 1.
  pose proof (custom_css_file_pure pc
    (add_log (page_config_log h)
       (mkWorld (log w) (probes w) (headers w ++ [("Content-Type", "text/css")]))))
    as Hpure.
  destruct (custom_css_file pc _) as [[e | file] w2]; simpl in *; subst w2;
    [reflexivity |].
  destruct (open_read file) as [e | css]; [| reflexivity].
  by destruct (is_IOError e).
Qed.

(** X16: the stylesheet handler sets the content type "text/css" on every
    run, before anything can fail, and sets no other header; it makes no
    call to the contents manager. *)
Theorem CustomCssHandler_get_frame (h : Handler) (w : world) :
  headers (snd (CustomCssHandler_get h w))
    = (headers w ++ [("Content-Type", "text/css")])%list
  ∧ probes (snd (CustomCssHandler_get h w)) = probes w.
Proof.
  rewrite CustomCssHandler_get_run.
  destruct (page_config_result h) as [e | pc]; [done |].
  cbv zeta. destruct (fst (custom_css_file pc _)) as [e | file]; [done |].
  destruct (open_read file) as [e | css]; [| done].
  by destruct (is_IOError e).
Qed.

(** X17: only an [IOError] becomes the error 500. Any other exception of
    the read (a text that does not decode, say) reaches the caller as it
    is, and is not logged. *)
Theorem CustomCssHandler_get_other_error (h : Handler) (w w1 : world)
    (page_config : dict) (file : string) (e : error) :
  get_page_config h (snd (set_header "Content-Type" "text/css" w))
    = (inr page_config, w1) →
  fst (custom_css_file page_config w1) = inr file →
  open_read file = inl e →
  is_IOError e = false →
  CustomCssHandler_get h w = (inl (Raise e), w1).
Proof.
  intros Hpc Hfile Hread Hio.
  rewrite get_page_config_run in Hpc. injection Hpc as Hresult Hw1.
  rewrite CustomCssHandler_get_run, Hresult. cbv zeta.
  unfold set_header. cbn [snd].
  rewrite Hw1, Hfile, Hread, Hio. reflexivity.
Qed.

(** X18: the keys that the stylesheet handler needs. Without
    "jupyterConfigDir" in the page configuration it raises the [KeyError] of
    that key. "staticDir" is read only when the first candidate is not a
    file: the handler then raises the [KeyError] of that key when it is
    absent, and a [TypeError] when it holds no string; when the first
    candidate is a file, its text is served even without "staticDir". None
    of these failures is logged or becomes the error 500. *)
Theorem CustomCssHandler_get_keys (h : Handler) (w w1 : world) (page_config : dict) :
  get_page_config h (snd (set_header "Content-Type" "text/css" w))
    = (inr page_config, w1) →
  (page_config !! "jupyterConfigDir" = None →
     CustomCssHandler_get h w
     = (inl (Raise (mkError KeyError "'jupyterConfigDir'")), w1))
  ∧ ∀ config_dir,
      page_config !! "jupyterConfigDir" = Some config_dir →
      let primary := format_value config_dir +:+ "/custom/custom.css" in
      (is_file primary = false →
       page_config !! "staticDir" = None →
       CustomCssHandler_get h w = (inl (Raise (mkError KeyError "'staticDir'")), w1))
      ∧ (∀ v, is_file primary = false →
           page_config !! "staticDir" = Some v →
           is_str v = false →
           ∃ e, cls e = TypeError
                ∧ CustomCssHandler_get h w = (inl (Raise e), w1))
      ∧ (∀ css, is_file primary = true →
           open_read primary = inr css →
           CustomCssHandler_get h w = (inr (Write css), w1)).
Proof.
  intros Hpc.
  rewrite get_page_config_run in Hpc. injection Hpc as Hresult Hw1.
  rewrite CustomCssHandler_get_run, Hresult. cbv zeta.
  unfold set_header. cbn [snd]. rewrite Hw1.
  unfold custom_css_file, getitem, bind, ret, raise.
  split.
  - by intros ->.
  - intros config_dir ->. simpl. repeat split.
    + by intros -> ->.
    + intros v -> -> Hv. simpl.
      exists (mkError TypeError "expected string or bytes-like object").
      by destruct v.
    + intros css -> Hread. simpl. by rewrite Hread.
Qed.

(** X19: from the configuration directory to the response. When
    [get_page_config] returns and no later layer writes the key
    "jupyterConfigDir", the first candidate is the file "custom/custom.css"
    of the configuration directory of Jupyter; when it is a file, its text
    is the response, and a failure to read it with an [IOError] is the error
    500. *)
Theorem CustomCssHandler_get_config_dir (h : Handler) (w : world) (pc : dict) :
  fst (get_page_config h w) = inr pc →
  trait_key_free "jupyterConfigDir" = true →
  extensions_keep h "jupyterConfigDir" →
  hook_keeps h "jupyterConfigDir" →
  let primary := jupyter_config_dir +:+ "/custom/custom.css" in
  is_file primary = true →
  (∀ css, open_read primary = inr css →
     fst (CustomCssHandler_get h w) = inr (Write css))
  ∧ (∀ e, open_read primary = inl e → is_IOError e = true →
       fst (CustomCssHandler_get h w)
       = inl (HTTPError 500 (Some "Custom CSS file not found."))).
Proof.
  intros Hrun Hfree Hext Hhook primary Hfile.
  assert (Hresult : page_config_result h = inr pc).
  { by rewrite get_page_config_run in Hrun. }
  destruct (get_page_config h w) as [r w'] eqn:Hgpc. simpl in Hrun. subst r.
  apply get_page_config_inr in Hgpc as (token & root & _ & _ & _ & _ & ->).
  rewrite CustomCssHandler_get_run, Hresult. cbv zeta.
  unfold custom_css_file, getitem, bind, ret.
  rewrite assembled_lookup by done.
  unfold set_mathjax. rewrite lookup_insert_eq. simpl. fold primary.
  rewrite Hfile. simpl.
  split.
  - by intros css ->.
  - by intros e -> ->.
Qed.

End More.

(** ** The further properties on concrete requests *)

(** X5, on a key of [page_config_data] that no layer writes. *)
Lemma page_config_data_passes_witness :
  let data : dict := {[ "collaborative" := VBool true ]} in
  let h := Demo.handler_with (Demo.settings_with_data data) "/home/jovyan" "/tree/" in
  ∃ pc,
    fst (@get_page_config Demo.lib h Demo.start) = inr pc
    ∧ pc !! "collaborative" = Some (VBool true).
Proof.
  intros data h.
  pose proof (@get_page_config_returns Demo.lib h Demo.start (VStr "secret")
                "/home/jovyan" true eq_refl eq_refl eq_refl eq_refl) as Hrun.
  eexists. split; [exact (f_equal fst Hrun) |].
  rewrite (@page_config_data_passes Demo.lib h Demo.start _ "collaborative"
             (f_equal fst Hrun) eq_refl eq_refl eq_refl (λ pc, eq_refl)).
  reflexivity.
Defined.

(** X6, on a [page_config_data] that holds another base URL. *)
Lemma fixed_entries_win_witness :
  let data : dict := {[ "baseUrl" := VStr "/other/" ]} in
  let h := Demo.handler_with (Demo.settings_with_data data) "/home/jovyan" "/tree/" in
  ∃ pc,
    fst (@get_page_config Demo.lib h Demo.start) = inr pc
    ∧ pc !! "baseUrl" = Some (VStr "/").
Proof.
  intros data h.
  pose proof (@get_page_config_returns Demo.lib h Demo.start (VStr "secret")
                "/home/jovyan" true eq_refl eq_refl eq_refl eq_refl) as Hrun.
  eexists. split; [exact (f_equal fst Hrun) |].
  apply (@fixed_entries_win Demo.lib h Demo.start _ (VStr "secret") "baseUrl"
           (VStr "/") (f_equal fst Hrun) eq_refl);
    [simpl; tauto | reflexivity | reflexivity | intros pc; reflexivity].
Defined.

(** X7, on the trait "static_dir". *)
Lemma trait_entry_witness :
  ∃ pc,
    fst (@get_page_config Demo.lib (Demo.handler "/tree/") Demo.start) = inr pc
    ∧ pc !! "staticDir" = Some (VStr "/usr/share/jupyter/lab/static").
Proof.
  pose proof (@get_page_config_returns Demo.lib (Demo.handler "/tree/") Demo.start
                (VStr "secret") "/home/jovyan" true eq_refl eq_refl eq_refl eq_refl) as Hrun.
  eexists. split; [exact (f_equal fst Hrun) |].
  apply (@trait_entry Demo.lib (Demo.handler "/tree/") Demo.start _ "static_dir"
           (f_equal fst Hrun));
    [apply list_elem_of_In; simpl; tauto | reflexivity | reflexivity
    | intros pc; reflexivity].
Defined.

(** X10, on the directory "project/notes". *)
Lemma TreeHandler_get_directory_first_witness :
  ∃ calls,
    probes (snd (@TreeHandler_get Demo.lib (Demo.handler "/tree/project/notes")
                   "project/notes" Demo.start))
      = calls
    ∧ forallb (λ c, negb (file_probe c)) calls = true.
Proof.
  exact (proj1 (@TreeHandler_get_directory_first Demo.lib
                  (Demo.handler "/tree/project/notes") "project/notes"
                  Demo.start eq_refl)).
Defined.

(** X12, on a hook that writes "treePath": the listing of "project/notes"
    is rendered with the path of the request. *)
Lemma TreeHandler_get_listing_config_witness :
  let h := Demo.handler_with (Demo.settings_with None (Some Demo.tree_hook))
             "/home/jovyan" "/tree/project/notes" in
  page_config_entry (@get_page_config Demo.lib h Demo.start) "treePath"
    = Some (VStr "elsewhere")
  ∧ ∃ pc',
      fst (@TreeHandler_get Demo.lib h "/project/notes/" Demo.start)
        = inr (Write (@render_template Demo.lib "tree.html" pc'))
      ∧ pc' !! "treePath" = Some (VStr "project/notes").
Proof.
  intros h. split; [vm_compute; reflexivity |].
  pose proof (@get_page_config_returns Demo.lib h Demo.start (VStr "secret")
                "/home/jovyan" true eq_refl eq_refl eq_refl eq_refl) as Hrun.
  destruct (@TreeHandler_get_listing_config Demo.lib h "/project/notes/" Demo.start
              _ eq_refl eq_refl (f_equal fst Hrun)) as (pc' & Hget & Hpath & _).
  exists pc'. split; [exact Hget | exact Hpath].
Defined.

(** X14, on the page of a notebook that does not exist. *)
Lemma page_handlers_serve_witness :
  file_exists Demo.cm "nowhere.ipynb" = false
  ∧ @NotebookHandler_get Demo.lib (Demo.handler "/notebooks/nowhere.ipynb")
      (Some "nowhere.ipynb") Demo.start
    = (inr (Write "notebooks.html"), Demo.start).
Proof.
  split; [reflexivity |].
  destruct (@page_handlers_serve Demo.lib "notebooks.html" (@NotebookHandler_get Demo.lib)
              (Demo.handler "/notebooks/nowhere.ipynb") (Some "nowhere.ipynb")
              Demo.start) as (Hfst & Hsnd & _).
  - simpl. tauto.
  - destruct (@NotebookHandler_get Demo.lib _ _ _) as [r w'].
    simpl in Hfst, Hsnd. subst r w'. vm_compute. reflexivity.
Defined.

(** X15, on the stylesheet beside the static directory. *)
Lemma custom_css_file_suffix_witness :
  let page_config : dict :=
    <["jupyterConfigDir" := VStr "/etc/jupyter"]>
      {[ "staticDir" := VStr "/usr/share/jupyter/lab/static" ]} in
  endswith "/usr/share/jupyter/lab/custom/custom.css" "custom/custom.css" = true.
Proof.
  intros page_config.
  apply (@custom_css_file_suffix Demo.lib page_config Demo.start).
  vm_compute. reflexivity.
Defined.

(** X17, on a stylesheet that does not decode. *)
Lemma CustomCssHandler_get_other_error_witness :
  @CustomCssHandler_get Demo.lib_undecodable (Demo.handler "/custom/custom.css")
     Demo.start
  = (inl (Raise (mkError ValueError "'utf-8' codec can't decode byte 0xff")),
     mkWorld [] [] [("Content-Type", "text/css")]).
Proof.
  pose proof (@get_page_config_returns Demo.lib_undecodable
                (Demo.handler "/custom/custom.css")
                (snd (set_header "Content-Type" "text/css" Demo.start))
                (VStr "secret") "/home/jovyan" true eq_refl eq_refl eq_refl eq_refl) as Hrun.
  apply (@CustomCssHandler_get_other_error Demo.lib_undecodable
           (Demo.handler "/custom/custom.css") Demo.start _ _
           "/home/jovyan/.jupyter/custom/custom.css" _ Hrun);
    [vm_compute; reflexivity | reflexivity | reflexivity].
Defined.

(** X18, on a host without a custom stylesheet and a hook that drops the
    static directory. *)
Lemma CustomCssHandler_get_keys_witness :
  let h := Demo.handler_with (Demo.settings_with None (Some Demo.forgetful_hook))
             "/home/jovyan" "/custom/custom.css" in
  @CustomCssHandler_get Demo.lib_without_stylesheet h Demo.start
  = (inl (Raise (mkError KeyError "'staticDir'")),
     mkWorld [] [] [("Content-Type", "text/css")]).
Proof.
  intros h.
  pose proof (@get_page_config_returns Demo.lib_without_stylesheet h
                (snd (set_header "Content-Type" "text/css" Demo.start))
                (VStr "secret") "/home/jovyan" true eq_refl eq_refl eq_refl eq_refl) as Hrun.
  destruct (@CustomCssHandler_get_keys Demo.lib_without_stylesheet h Demo.start
              _ _ Hrun) as [_ Hkeys].
  destruct (Hkeys (VStr "/home/jovyan/.jupyter")) as (Hmissing & _).
  - vm_compute. reflexivity.
  - apply Hmissing; vm_compute; reflexivity.
Defined.

(** X19, on the host with a custom stylesheet. *)
Lemma CustomCssHandler_get_config_dir_witness :
  fst (@CustomCssHandler_get Demo.lib (Demo.handler "/custom/custom.css") Demo.start)
  = inr (Write "body { margin: 0 }").
Proof.
  pose proof (@get_page_config_returns Demo.lib (Demo.handler "/custom/custom.css")
                Demo.start (VStr "secret") "/home/jovyan" true
                eq_refl eq_refl eq_refl eq_refl) as Hrun.
  destruct (@CustomCssHandler_get_config_dir Demo.lib
              (Demo.handler "/custom/custom.css") Demo.start _
              (f_equal fst Hrun) eq_refl eq_refl (λ pc, eq_refl) eq_refl)
    as [Hread _].
  apply Hread. reflexivity.
Defined.
